(** * MS-CHAPv2 demo server: protocol engine and session handling

    A shallow embedding of [server/mschap.py] (class [MSCHAPv2]) and of the
    session part of [server/server.py] ([AuthSessionManager] and the
    [/auth/response] endpoint), with the properties its design document
    states about them.

    Python values are modelled as follows.
    - [bytes] / [bytearray]: [list byte];
    - [int]: [Z] (unbounded), bit operations by [Z.land], [Z.lor],
      [Z.shiftl], [Z.shiftr];
    - [str]: the list of its Unicode code points;
    - exceptions: the [Raise] branch of [result];
    - the dict of sessions: a [gmap] keyed by the session identifier.

    [hashlib.md5], [hashlib.sha1], [DES.encrypt_block] and
    [base64.b64decode] live outside the repository sources; they are
    parameters of the development. *)

From Stdlib Require Import ZArith NArith List Lia Bool.
From Stdlib Require Import Strings.Byte.
From stdpp Require Import base option list strings gmap.

Local Open Scope Z_scope.

(** ** Python runtime values *)

Module Py.

(** The exceptions the modelled code can raise. [Other] stands for an
    exception coming out of an external primitive. *)
Inductive exn : Type :=
| ValueError (msg : string)
| UnicodeEncodeError (codec : string)
| IndexError
| KeyError (msg : string)
| HTTPException (status_code : Z) (detail : string)
| Other (what : string).

Inductive result (A : Type) : Type :=
| Ok (a : A)
| Raise (e : exn).
Arguments Ok {A} a.
Arguments Raise {A} e.

Definition bind {A B} (r : result A) (k : A -> result B) : result B :=
  match r with
  | Ok a => k a
  | Raise e => Raise e
  end.

(** A [for] loop whose body may raise: the accumulator is threaded through
    the iterations, the first exception ends the loop. *)
Fixpoint for_each {A S} (xs : list A) (body : S -> A -> result S) (s : S) : result S :=
  match xs with
  | [] => Ok s
  | x :: xs' => bind (body s x) (for_each xs' body)
  end.

Abbreviation bytes := (list byte).

#[export] Instance byte_eq_dec : EqDecision byte := Byte.byte_eq_dec.

Definition byte_val (b : byte) : Z := Z.of_N (Byte.to_N b).

(** Conversion of an [int] to one byte, as done by [bytearray] item
    assignment: only values in [range(0, 256)] are accepted. *)
Definition int_to_byte (v : Z) : option byte :=
  if (0 <=? v) && (v <? 256) then Byte.of_N (Z.to_N v) else None.

(** [int.from_bytes(s, "big")]. *)
Definition int_from_bytes_big (s : bytes) : Z :=
  fold_left (fun acc b => acc * 256 + byte_val b) s 0.

(** [bytearray(n)]: [n] zero bytes. *)
Definition bytearray (n : nat) : bytes := replicate n "000"%byte.

(** [out[i] = v] on a bytearray. *)
Definition bytearray_setitem (out : bytes) (i : nat) (v : Z) : result bytes :=
  if decide (i < length out)%nat then
    match int_to_byte v with
    | Some b => Ok (<[i:=b]> out)
    | None => Raise (ValueError "byte must be in range(0, 256)")
    end
  else Raise IndexError.

(** [s[a:b]] for [0 <= a <= b]; out-of-range bounds are clamped. *)
Definition slice {A} (s : list A) (a b : nat) : list A := take (b - a) (drop a s).

(** [bin(n).count("1")]: the number of one digits of the magnitude. *)
Fixpoint pos_ones (p : positive) : Z :=
  match p with
  | xH => 1
  | xO q => pos_ones q
  | xI q => 1 + pos_ones q
  end.

Definition bin_count_ones (n : Z) : Z :=
  match n with
  | Z0 => 0
  | Zpos p => pos_ones p
  | Zneg p => pos_ones p
  end.

(** A [str] is the sequence of its code points, each below [0x110000]. *)
Abbreviation str := (list N).

Definition str_of_string (s : string) : str :=
  map Ascii.N_of_ascii (String.list_ascii_of_string s).

(** [s.encode("ascii")]. *)
Fixpoint encode_ascii (s : str) : result bytes :=
  match s with
  | [] => Ok []
  | cp :: s' =>
      if (cp <? 128)%N then
        match Byte.of_N cp with
        | Some b => bind (encode_ascii s') (fun bs => Ok (b :: bs))
        | None => Raise (UnicodeEncodeError "ascii")
        end
      else Raise (UnicodeEncodeError "ascii")
  end.

(** The two bytes of a 16-bit code unit, low byte first. *)
Definition utf16le_unit (u : N) : bytes :=
  match Byte.of_N (u mod 256), Byte.of_N ((u / 256) mod 256) with
  | Some lo, Some hi => [lo; hi]
  | _, _ => []
  end.

(** [s.encode("utf-16le")]: surrogate code points cannot be encoded; code
    points above the basic plane become a surrogate pair. A value from
    [0x110000] up is no code point and is rejected as well. *)
Fixpoint encode_utf16le (s : str) : result bytes :=
  match s with
  | [] => Ok []
  | cp :: s' =>
      if ((cp <? 0xD800) || ((0xE000 <=? cp) && (cp <? 0x10000)))%N then
        bind (encode_utf16le s') (fun bs => Ok (utf16le_unit cp ++ bs))
      else if ((0x10000 <=? cp) && (cp <? 0x110000))%N then
        let v := (cp - 0x10000)%N in
        bind (encode_utf16le s') (fun bs =>
          Ok (utf16le_unit (0xD800 + v / 1024) ++ utf16le_unit (0xDC00 + v mod 1024) ++ bs))
      else Raise (UnicodeEncodeError "utf-16-le")
  end.

End Py.

(** ** [server/mschap.py]: class [MSCHAPv2] *)

Module MSCHAPv2.
Import Py.

Notation "x <- e ; k" := (bind e (fun x => k))
  (at level 100, e at next level, right associativity, only parsing).

Section Engine.

(** [hashlib.md5(data).digest()] and [hashlib.sha1(data).digest()], as
    functions of everything fed to the hash object, and
    [DES.encrypt_block(block, key)], which may raise. *)
Variable md5 : bytes -> bytes.
Variable sha1 : bytes -> bytes.
Variable DES_encrypt_block : bytes -> bytes -> result bytes.

(** A hash object holds what [update] has fed it so far. *)
Definition hash_new : bytes := [].
Definition hash_update (h data : bytes) : bytes := h ++ data.

Definition nt_password_hash (password : str) : result bytes :=
  pw_bytes <- encode_utf16le password;
  let h := hash_new in
  let h := hash_update h pw_bytes in
  Ok (md5 h).

Definition challenge_hash (peer_challenge auth_challenge : bytes) (username : str)
  : result bytes :=
  if negb (length peer_challenge =? 16)%nat || negb (length auth_challenge =? 16)%nat then
    Raise (ValueError "peer_challenge и auth_challenge должны быть по 16 байт")
  else
    let sha := hash_new in
    let sha := hash_update sha peer_challenge in
    let sha := hash_update sha auth_challenge in
    user_bytes <- encode_ascii username;
    let sha := hash_update sha user_bytes in
    Ok (take 8 (sha1 sha)).

Definition _apply_des_parity_to_7bits (b7 : Z) : Z :=
  let b7 := Z.land b7 0x7F in
  let ones := bin_count_ones b7 in
  let parity_bit := if ones mod 2 =? 0 then 1 else 0 in
  Z.land (Z.lor (Z.shiftl b7 1) parity_bit) 0xFF.

Definition make_des_key_from_7_bytes (seven : bytes) : result bytes :=
  if negb (length seven =? 7)%nat then
    Raise (ValueError "Нужно ровно 7 байт для DES-ключа")
  else
    let key56 := int_from_bytes_big seven in
    let out := bytearray 8 in
    out <- for_each (seq 0 8) (fun out i =>
             let shift := 7 * (7 - Z.of_nat i) in
             let segment := Z.land (Z.shiftr key56 shift) 0x7F in
             bytearray_setitem out i (_apply_des_parity_to_7bits segment)) out;
    Ok out.

Definition challenge_response (challenge8 nt_hash : bytes) : result bytes :=
  if negb (length challenge8 =? 8)%nat then
    Raise (ValueError "challenge8 должен быть 8 байт")
  else if negb (length nt_hash =? 16)%nat then
    Raise (ValueError "NT hash должен быть 16 байт")
  else
    let z := nt_hash ++ replicate 5 "000"%byte in
    let resp := [] in
    resp <- for_each (seq 0 3) (fun resp i =>
              let seven := slice z (i * 7) ((i + 1) * 7) in
              key8 <- make_des_key_from_7_bytes seven;
              block <- DES_encrypt_block challenge8 key8;
              Ok (resp ++ block)) resp;
    Ok resp.

Definition generate_nt_response (auth_challenge peer_challenge : bytes)
    (username password : str) : result bytes :=
  nt_hash <- nt_password_hash password;
  chall8 <- challenge_hash peer_challenge auth_challenge username;
  challenge_response chall8 nt_hash.

Definition verify_nt_response (auth_challenge peer_challenge : bytes) (username : str)
    (stored_nt_hash received_nt_response : bytes) : result bool :=
  if negb (length received_nt_response =? 24)%nat then Ok false
  else
    chall8 <- challenge_hash peer_challenge auth_challenge username;
    expected <- challenge_response chall8 stored_nt_hash;
    Ok (bool_decide (expected = received_nt_response)).

End Engine.

End MSCHAPv2.

(** ** [server/server.py]: sessions and the [/auth/response] endpoint *)

Module Server.
Import Py.

Record AuthSession : Type := mkAuthSession {
  username : str;
  auth_challenge : bytes;
}.

(** [AuthSessionManager]: its only field is the dict [_sessions]. *)
Record AuthSessionManager : Type := mkAuthSessionManager {
  _sessions : gmap str AuthSession;
}.

(** A row of the [users] table, as far as the endpoints read it. *)
Record User : Type := mkUser {
  user_username : str;
  nt_hash : bytes;
}.

(** The module-level objects [session_manager] and [db]; the table is
    keyed by its unique [username] column. *)
Record ServerState : Type := mkServerState {
  session_manager : AuthSessionManager;
  db : gmap str User;
}.

Record AuthResponseRequest : Type := mkAuthResponseRequest {
  req_session_id : str;
  req_username : str;
  req_peer_challenge : str;
  req_nt_response : str;
}.

Record AuthResult : Type := mkAuthResult {
  success : bool;
}.

(** [create_session]: the two values drawn from the environment,
    [os.urandom(16)] and [str(uuid.uuid4())], are passed in. *)
Definition create_session (self : AuthSessionManager) (username : str)
    (urandom16 : bytes) (uuid4 : str) : AuthSessionManager * str :=
  let auth_challenge := urandom16 in
  let session_id := uuid4 in
  (mkAuthSessionManager (<[session_id := mkAuthSession username auth_challenge]> (_sessions self)),
   session_id).

Definition get_session (self : AuthSessionManager) (session_id : str) : result AuthSession :=
  match _sessions self !! session_id with
  | Some sess => Ok sess
  | None => Raise (KeyError "session not found")
  end.

Definition get_auth_challenge (self : AuthSessionManager) (session_id : str) : result bytes :=
  bind (get_session self session_id) (fun sess => Ok (auth_challenge sess)).

Definition get_username (self : AuthSessionManager) (session_id : str) : result str :=
  bind (get_session self session_id) (fun sess => Ok (username sess)).

Definition delete_session (self : AuthSessionManager) (session_id : str) : AuthSessionManager :=
  mkAuthSessionManager (delete session_id (_sessions self)).

(** Request handlers run in a state-and-exception monad over the server
    state: an exception leaves the state as it was when it was raised. *)
Definition handler (A : Type) : Type := ServerState -> result A * ServerState.

Definition ret {A} (a : A) : handler A := fun st => (Ok a, st).
Definition raise {A} (e : exn) : handler A := fun st => (Raise e, st).
Definition lift {A} (r : result A) : handler A := fun st => (r, st).
Definition and_then {A B} (m : handler A) (k : A -> handler B) : handler B :=
  fun st => match m st with
            | (Ok a, st') => k a st'
            | (Raise e, st') => (Raise e, st')
            end.
Definition read {A} (f : ServerState -> A) : handler A := fun st => (Ok (f st), st).
Definition update_sessions (f : AuthSessionManager -> AuthSessionManager) : handler unit :=
  fun st => (Ok tt, mkServerState (f (session_manager st)) (db st)).

(** [try: body except KeyError: raise e] and
    [try: body except Exception: raise e]. *)
Definition on_KeyError {A} (body : handler A) (e : exn) : handler A :=
  fun st => match body st with
            | (Raise (KeyError _), st') => (Raise e, st')
            | r => r
            end.
Definition on_Exception {A} (body : handler A) (e : exn) : handler A :=
  fun st => match body st with
            | (Raise _, st') => (Raise e, st')
            | r => r
            end.

Notation "x <- e ; k" := (and_then e (fun x => k))
  (at level 100, e at next level, right associativity, only parsing).
Notation "e ;; k" := (and_then e (fun _ => k))
  (at level 100, right associativity, only parsing).

Section Endpoints.

Variable sha1 : bytes -> bytes.
Variable DES_encrypt_block : bytes -> bytes -> result bytes.
(** [base64.b64decode] on a [str] argument. *)
Variable b64decode : str -> result bytes.

Definition auth_response (req : AuthResponseRequest) : handler AuthResult :=
  sess <- on_KeyError
            (sess_username <- (mgr <- read session_manager;
                               lift (get_username mgr (req_session_id req)));
             auth_challenge <- (mgr <- read session_manager;
                                lift (get_auth_challenge mgr (req_session_id req)));
             ret (sess_username, auth_challenge))
            (HTTPException 400 "Invalid session_id");
  let '(sess_username, auth_challenge) := sess in
  if bool_decide (sess_username <> req_username req) then
    raise (HTTPException 400 "Username mismatch")
  else
    decoded <- on_Exception
                 (peer_challenge <- lift (b64decode (req_peer_challenge req));
                  nt_response <- lift (b64decode (req_nt_response req));
                  ret (peer_challenge, nt_response))
                 (HTTPException 400 "Bad base64");
    let '(peer_challenge, nt_response) := decoded in
    if negb (length peer_challenge =? 16)%nat || negb (length nt_response =? 24)%nat then
      raise (HTTPException 400 "Wrong lengths")
    else
      user <- read (fun st => db st !! req_username req);
      match user with
      | None => raise (HTTPException 404 "User not found")
      | Some user =>
          let stored_nt_hash := nt_hash user in
          ok <- lift (MSCHAPv2.verify_nt_response sha1 DES_encrypt_block
                        auth_challenge peer_challenge (req_username req)
                        stored_nt_hash nt_response);
          update_sessions (fun mgr => delete_session mgr (req_session_id req)) ;;
          ret (mkAuthResult ok)
      end.

End Endpoints.

End Server.

(** ** Reference definitions, following the wording of the design document *)

Module Spec.
Import Py.

(** "Interpret the 7 bytes as a single 56-bit big-endian integer": the
    first byte carries the highest weight. *)
Fixpoint big_endian (s : bytes) : Z :=
  match s with
  | [] => 0
  | b :: s' => byte_val b * 256 ^ Z.of_nat (length s') + big_endian s'
  end.

(** "The 7-bit group at bit offset [7*(7-i)]". *)
Definition group (n : Z) (i : nat) : Z :=
  (n / 2 ^ (7 * (7 - Z.of_nat i))) mod 2 ^ 7.

(** "Count set bits", among the [width] low bits. *)
Definition set_bits (width : nat) (v : Z) : nat :=
  length (List.filter (fun k => Z.testbit v (Z.of_nat k)) (seq 0 width)).

(** "If the count is even, set a parity bit of 1, else 0." *)
Definition parity_bit (g : Z) : Z :=
  if Nat.even (set_bits 7 g) then 1 else 0.

(** "Left-shift the 7-bit group by one and OR in the parity bit to form the
    output byte." *)
Definition output_byte (g : Z) : Z := Z.lor (Z.shiftl g 1) (parity_bit g).

(** Key Expansion: the values of the eight output bytes. *)
Definition key_expansion (seven : bytes) : list Z :=
  map (fun i => output_byte (group (big_endian seven) i)) (seq 0 8).

(** A byte has odd parity when its number of set bits is odd. *)
Definition odd_parity (b : byte) : Prop := Nat.odd (set_bits 8 (byte_val b)) = true.

(** The byte of a value in [range(0, 256)]. *)
Definition to_byte (v : Z) : byte := default "000"%byte (int_to_byte v).

(** Response Transform: 5 zero bytes appended, three consecutive 7-byte
    chunks, each expanded to a key with which the same challenge is
    encrypted once, the three cipher outputs concatenated in order. *)
Definition response_transform (encrypt : bytes -> bytes -> result bytes)
    (challenge8 digest16 : bytes) : result bytes :=
  let buffer := digest16 ++ ["000"; "000"; "000"; "000"; "000"]%byte in
  let chunk1 := take 7 buffer in
  let chunk2 := take 7 (drop 7 buffer) in
  let chunk3 := take 7 (drop 14 buffer) in
  bind (encrypt challenge8 (map to_byte (key_expansion chunk1))) (fun out1 =>
  bind (encrypt challenge8 (map to_byte (key_expansion chunk2))) (fun out2 =>
  bind (encrypt challenge8 (map to_byte (key_expansion chunk3))) (fun out3 =>
  Ok (out1 ++ out2 ++ out3)))).

(** Recovering the key material from a key: the high 7 bits of each byte,
    concatenated, most significant group first, and cut into [n] bytes. *)
Definition high7 (b : byte) : Z := Z.shiftr (byte_val b) 1.

Definition concat_high7 (key8 : bytes) : Z :=
  fold_left (fun acc b => acc * 2 ^ 7 + high7 b) key8 0.

Fixpoint int_to_bytes_big (n : nat) (v : Z) : bytes :=
  match n with
  | O => []
  | S n' => int_to_bytes_big n' (v / 256) ++ [to_byte (v mod 256)]
  end.

Definition recover_key_material (key8 : bytes) : bytes :=
  int_to_bytes_big 7 (concat_high7 key8).

(** Changing one bit of a buffer: bit [i mod 8] of byte [i / 8]. *)
Definition flip_byte_bit (b : byte) (k : nat) : byte :=
  default b (Byte.of_N (N.lxor (Byte.to_N b) (2 ^ N.of_nat k))).

Definition flip_bit (r : bytes) (i : nat) : bytes :=
  alter (fun b => flip_byte_bit b (i mod 8)) (i / 8)%nat r.

(** A string the [ascii] codec accepts, and one the [utf-16-le] codec
    accepts (no surrogate code point). *)
Definition is_ascii (s : str) : Prop := Forall (fun cp => (cp < 128)%N) s.

Definition no_surrogate (s : str) : Prop :=
  Forall (fun cp => (cp < 0xD800 \/ 0xE000 <= cp < 0x110000)%N) s.

(** What the protocol engine expects of its primitives: a 16-byte
    credential digest, a challenge digest of at least 8 bytes, and a
    cipher that maps an 8-byte block and an 8-byte key to an 8-byte block. *)
Definition digest16 (md5 : bytes -> bytes) : Prop :=
  forall m, length (md5 m) = 16%nat.

Definition digest_at_least8 (sha1 : bytes -> bytes) : Prop :=
  forall m, (8 <= length (sha1 m))%nat.

Definition block_cipher (encrypt : bytes -> bytes -> result bytes) : Prop :=
  forall block key, length block = 8%nat -> length key = 8%nat ->
    exists out, encrypt block key = Ok out /\ length out = 8%nat.

End Spec.

(** ** Stand-ins for the external primitives, to run the model on concrete
    inputs. They have the sizes of the real ones, not their strength. *)

Module Demo.
Import Py.

Definition xor_byte (a b : byte) : byte :=
  default a (Byte.of_N (N.lxor (Byte.to_N a) (Byte.to_N b))).

Definition fit (n : nat) (m : bytes) : bytes := take n (m ++ replicate n "000"%byte).

Definition md5 (m : bytes) : bytes := fit 16 (rev m).
Definition sha1 (m : bytes) : bytes := fit 20 m.

Definition DES_encrypt_block (block key : bytes) : result bytes :=
  if negb (length block =? 8)%nat || negb (length key =? 8)%nat then
    Raise (Other "bad block or key size")
  else Ok (zip_with xor_byte block key).

(** A decoder that reads each code point as one byte. *)
Definition b64decode (s : str) : result bytes := encode_ascii s.

Definition zeros (n : nat) : bytes := replicate n "000"%byte.

(** One exchange, run with the stand-ins. *)
Definition identity : str := str_of_string "alice".
Definition password : str := str_of_string "Secret123".
Definition auth_challenge : bytes := zeros 16.
Definition peer_challenge : bytes :=
  ["001"; "002"; "003"; "004"; "005"; "006"; "007"; "008";
   "009"; "010"; "011"; "012"; "013"; "014"; "015"; "016"]%byte.

Definition digest : bytes :=
  Eval vm_compute in
    match MSCHAPv2.nt_password_hash md5 password with
    | Ok d => d
    | Raise _ => []
    end.

Definition response : bytes :=
  Eval vm_compute in
    match MSCHAPv2.generate_nt_response md5 sha1 DES_encrypt_block
            auth_challenge peer_challenge identity password with
    | Ok r => r
    | Raise _ => []
    end.

(** A server with one open session, for [identity], and a request that
    presents another identity on that session. *)
Definition session_id : str := str_of_string "sid-1".

Definition server : Server.ServerState :=
  Server.mkServerState
    (fst (Server.create_session (Server.mkAuthSessionManager ∅) identity
            auth_challenge session_id))
    (<[identity := Server.mkUser identity digest]> ∅).

Definition other_identity_request : Server.AuthResponseRequest :=
  Server.mkAuthResponseRequest session_id (str_of_string "bob")
    (str_of_string "AQIDBAUGBwgJCgsMDQ4PEA==") (str_of_string "").

End Demo.

(** ** [server/db.py]: the [users] table *)

Module Database.
Import Py Server.

(** [get_user_by_username]: the first row with that username, if any. *)
Definition get_user_by_username (table : gmap str User) (username : str) : option User :=
  table !! username.

(** [create_user]: add the row, commit, refresh it, return it. The
    database is outside the model: [commit_error] is the exception that
    [session.commit()] raises, if any, and [refresh_error] the one that
    [session.refresh(user)] raises, if any. A commit that raises stores
    nothing; once the commit has passed the row is stored, also when the
    refresh then raises. A refusal of the database (a second row for a
    username, the column being unique, or a value it does not take)
    reaches the model as a [commit_error], like any other failure. *)
Definition create_user (table : gmap str User) (username : str) (nt_hash : bytes)
    (commit_error refresh_error : option exn) : result User * gmap str User :=
  let user := mkUser username nt_hash in
  match commit_error with
  | Some e => (Raise e, table)
  | None =>
      let table := <[username := user]> table in
      match refresh_error with
      | Some e => (Raise e, table)
      | None => (Ok user, table)
      end
  end.

End Database.

(** ** [server/server.py]: the [/auth/register] and [/auth/challenge]
    endpoints *)

Module Api.
Import Py Server.

(** [b.decode("ascii")]. *)
Fixpoint decode_ascii (b : bytes) : result str :=
  match b with
  | [] => Ok []
  | x :: b' =>
      if (Byte.to_N x <? 128)%N then
        bind (decode_ascii b') (fun s => Ok (Byte.to_N x :: s))
      else Raise (Other "UnicodeDecodeError")
  end.

Record RegisterRequest : Type := mkRegisterRequest {
  reg_username : str;
  reg_password : str;
}.

Record RegisterResult : Type := mkRegisterResult {
  reg_success : bool;
}.

Record ChallengeRequest : Type := mkChallengeRequest {
  chal_username : str;
}.

Record ChallengeResponse : Type := mkChallengeResponse {
  session_id : str;
  auth_challenge_b64 : str;
}.

(** [db.create_user] and [session_manager.create_session] as steps of a
    handler. *)
Definition db_create_user (username : str) (nt_hash : bytes)
    (commit_error refresh_error : option exn) : handler User :=
  fun st =>
    let '(r, table) :=
      Database.create_user (db st) username nt_hash commit_error refresh_error in
    (r, mkServerState (session_manager st) table).

Definition manager_create_session (username : str) (urandom16 : bytes) (uuid4 : str)
  : handler str :=
  fun st =>
    let '(mgr, session_id) := create_session (session_manager st) username urandom16 uuid4 in
    (Ok session_id, mkServerState mgr (db st)).

(** The state once [session_manager.delete_session] has run for the
    session of a request. *)
Definition consumed (req : AuthResponseRequest) (st : ServerState) : ServerState :=
  mkServerState (delete_session (session_manager st) (req_session_id req)) (db st).

Section Endpoints.

Variable md5 : bytes -> bytes.
(** [base64.b64encode]. *)
Variable b64encode : bytes -> bytes.

(** [register]; [commit_error] and [refresh_error] are passed on to
    [create_user]. *)
Definition register (req : RegisterRequest) (commit_error refresh_error : option exn)
  : handler RegisterResult :=
  user <- read (fun st => Database.get_user_by_username (db st) (reg_username req));
  match user with
  | Some _ => raise (HTTPException 400 "User already exists")
  | None =>
      nt_hash <- lift (MSCHAPv2.nt_password_hash md5 (reg_password req));
      on_Exception
        (new_user <- db_create_user (reg_username req) nt_hash commit_error refresh_error;
         ret tt)
        (HTTPException 500 "DB error") ;;
      ret (mkRegisterResult true)
  end.

(** [auth_challenge]; the two values [create_session] draws are passed
    in. *)
Definition auth_challenge (req : ChallengeRequest) (urandom16 : bytes) (uuid4 : str)
  : handler ChallengeResponse :=
  user <- read (fun st => Database.get_user_by_username (db st) (chal_username req));
  match user with
  | None => raise (HTTPException 404 "User not found")
  | Some _ =>
      session_id <- manager_create_session (chal_username req) urandom16 uuid4;
      auth_challenge <- (mgr <- read session_manager;
                         lift (get_auth_challenge mgr session_id));
      auth_b64 <- lift (decode_ascii (b64encode auth_challenge));
      ret (mkChallengeResponse session_id auth_b64)
  end.

End Endpoints.

End Api.

(** ** One registration and login, run with stand-ins *)

Module Scenario.
Import Py.

(** A text encoding of bytes and its decoder, in place of base64: two
    hexadecimal digits for each byte. *)
Definition hex_digit (n : N) : byte :=
  default "0"%byte (Byte.of_N (if (n <? 10)%N then 48 + n else 87 + n)).

Definition b64encode (b : bytes) : bytes :=
  flat_map (fun x => [hex_digit (Byte.to_N x / 16); hex_digit (Byte.to_N x mod 16)]) b.

Definition hex_value (cp : N) : option N :=
  if ((48 <=? cp) && (cp <? 58))%N then Some (cp - 48)%N
  else if ((97 <=? cp) && (cp <? 103))%N then Some (cp - 87)%N
  else None.

Fixpoint b64decode (s : str) : result bytes :=
  match s with
  | [] => Ok []
  | [_] => Raise (ValueError "Incorrect padding")
  | hi :: lo :: s' =>
      match hex_value hi, hex_value lo with
      | Some a, Some b =>
          match Byte.of_N (16 * a + b) with
          | Some x => bind (b64decode s') (fun bs => Ok (x :: bs))
          | None => Raise (ValueError "Invalid character")
          end
      | _, _ => Raise (ValueError "Invalid character")
      end
  end.

Definition text (b : bytes) : str := map Byte.to_N (b64encode b).

(** An empty server; the state after "alice" registered; the state after
    she was then issued a challenge; her answer and two bad ones. *)
Definition empty : Server.ServerState :=
  Server.mkServerState (Server.mkAuthSessionManager ∅) ∅.

Definition register_request : Api.RegisterRequest :=
  Api.mkRegisterRequest Demo.identity Demo.password.

Definition registered : Server.ServerState :=
  (Api.register Demo.md5 register_request None None empty).2.

Definition challenged : Server.ServerState :=
  (Api.auth_challenge b64encode (Api.mkChallengeRequest Demo.identity)
     Demo.auth_challenge Demo.session_id registered).2.

Definition good_request : Server.AuthResponseRequest :=
  Server.mkAuthResponseRequest Demo.session_id Demo.identity
    (text Demo.peer_challenge) (text Demo.response).

Definition bad_request : Server.AuthResponseRequest :=
  Server.mkAuthResponseRequest Demo.session_id Demo.identity
    (text Demo.peer_challenge) (text (Spec.flip_bit Demo.response 77)).

Definition short_request : Server.AuthResponseRequest :=
  Server.mkAuthResponseRequest Demo.session_id Demo.identity
    (text Demo.peer_challenge) (text (Demo.zeros 23)).

Definition garbled_request : Server.AuthResponseRequest :=
  Server.mkAuthResponseRequest Demo.session_id Demo.identity
    (str_of_string "zz") (text Demo.response).

(** A user whose name is not ASCII, with an open session. *)
Definition zoe : str := [90; 111; 235]%N.

Definition zoe_server : Server.ServerState :=
  Server.mkServerState
    (Server.mkAuthSessionManager
       (<[Demo.session_id := Server.mkAuthSession zoe Demo.auth_challenge]> ∅))
    (<[zoe := Server.mkUser zoe Demo.digest]> ∅).

Definition zoe_request : Server.AuthResponseRequest :=
  Server.mkAuthResponseRequest Demo.session_id zoe
    (text Demo.peer_challenge) (text Demo.response).

End Scenario.

(** ** Facts about the modelled runtime values *)

Module PyFacts.
Import Py.

Lemma byte_val_range (b : byte) : 0 <= byte_val b < 256.
Proof.
  unfold byte_val. pose proof (Byte.to_N_bounded b). lia.
Qed.

Lemma int_to_byte_val (b : byte) : int_to_byte (byte_val b) = Some b.
Proof.
  unfold int_to_byte. pose proof (byte_val_range b) as Hr.
  replace (0 <=? byte_val b) with true by (symmetry; apply Z.leb_le; lia).
  replace (byte_val b <? 256) with true by (symmetry; apply Z.ltb_lt; lia).
  simpl. unfold byte_val. rewrite N2Z.id. apply Byte.of_to_N.
Qed.

Lemma int_to_byte_Some (v : Z) (b : byte) : int_to_byte v = Some b -> byte_val b = v.
Proof.
  unfold int_to_byte. destruct (0 <=? v) eqn:Hlo; [|discriminate].
  destruct (v <? 256); [|discriminate]. simpl. intros H.
  apply Byte.to_of_N in H. unfold byte_val. rewrite H.
  apply Z2N.id. now apply Z.leb_le.
Qed.

Lemma int_to_byte_in_range (v : Z) :
  0 <= v < 256 -> exists b, int_to_byte v = Some b /\ byte_val b = v.
Proof.
  intros Hr. destruct (int_to_byte v) as [b|] eqn:E.
  - exists b. split; [reflexivity | now apply int_to_byte_Some].
  - exfalso. unfold int_to_byte in E.
    replace (0 <=? v) with true in E by (symmetry; apply Z.leb_le; lia).
    replace (v <? 256) with true in E by (symmetry; apply Z.ltb_lt; lia).
    simpl in E. apply Byte.of_N_None_iff in E. lia.
Qed.

Lemma to_byte_val (b : byte) : Spec.to_byte (byte_val b) = b.
Proof. unfold Spec.to_byte. now rewrite int_to_byte_val. Qed.

Lemma map_to_byte_val (s : bytes) : map Spec.to_byte (map byte_val s) = s.
Proof.
  induction s as [|b s IH]; simpl; [reflexivity|].
  now rewrite to_byte_val, IH.
Qed.

Lemma byte_val_inj (a b : byte) : byte_val a = byte_val b -> a = b.
Proof.
  intros H. rewrite <- (to_byte_val a), <- (to_byte_val b). now rewrite H.
Qed.

Lemma int_from_bytes_big_snoc (s : bytes) (b : byte) :
  int_from_bytes_big (s ++ [b]) = int_from_bytes_big s * 256 + byte_val b.
Proof. unfold int_from_bytes_big. now rewrite fold_left_app. Qed.

Lemma int_from_bytes_big_range (s : bytes) :
  0 <= int_from_bytes_big s < 256 ^ Z.of_nat (length s).
Proof.
  induction s as [|b s IH] using rev_ind.
  - cbn. lia.
  - rewrite int_from_bytes_big_snoc, length_app, Nat.add_1_r, Nat2Z.inj_succ.
    rewrite Z.pow_succ_r by lia. pose proof (byte_val_range b). lia.
Qed.

(** The left fold of [int.from_bytes] computes the big-endian value. *)
Lemma fold_from (s : bytes) (acc : Z) :
  fold_left (fun a b => a * 256 + byte_val b) s acc
  = acc * 256 ^ Z.of_nat (length s) + Spec.big_endian s.
Proof.
  revert acc. induction s as [|b s IH]; intros acc.
  - cbn. lia.
  - cbn [fold_left Spec.big_endian length]. rewrite IH, Nat2Z.inj_succ.
    rewrite Z.pow_succ_r by lia. ring.
Qed.

Lemma int_from_bytes_big_spec (s : bytes) : int_from_bytes_big s = Spec.big_endian s.
Proof. unfold int_from_bytes_big. rewrite fold_from. lia. Qed.

(** Cutting an integer into bytes undoes [int.from_bytes]. *)
Lemma int_to_bytes_from_bytes (s : bytes) :
  Spec.int_to_bytes_big (length s) (int_from_bytes_big s) = s.
Proof.
  induction s as [|b s IH] using rev_ind; [reflexivity|].
  rewrite length_app, Nat.add_1_r, int_from_bytes_big_snoc.
  cbn [Spec.int_to_bytes_big]. pose proof (byte_val_range b) as Hb.
  replace ((int_from_bytes_big s * 256 + byte_val b) / 256) with (int_from_bytes_big s)
    by (apply Z.div_unique with (r := byte_val b); lia).
  replace ((int_from_bytes_big s * 256 + byte_val b) mod 256) with (byte_val b)
    by (apply Z.mod_unique with (q := int_from_bytes_big s); lia).
  now rewrite IH, to_byte_val.
Qed.

End PyFacts.

(** ** Key Expansion *)

Module KeyExpansion.
Import Py MSCHAPv2 PyFacts.

(** Everything needed about the parity step, checked on each of the 128
    possible 7-bit groups. *)
Lemma parity_table :
  forallb (fun s =>
      (_apply_des_parity_to_7bits s =? Spec.output_byte s)
      && (0 <=? _apply_des_parity_to_7bits s)
      && (_apply_des_parity_to_7bits s <? 256)
      && Nat.odd (Spec.set_bits 8 (_apply_des_parity_to_7bits s))
      && (Z.shiftr (_apply_des_parity_to_7bits s) 1 =? s))
    (map Z.of_nat (seq 0 128)) = true.
Proof. vm_compute. reflexivity. Qed.

Lemma parity_facts (s : Z) :
  0 <= s < 128 ->
  _apply_des_parity_to_7bits s = Spec.output_byte s
  /\ 0 <= _apply_des_parity_to_7bits s < 256
  /\ Nat.odd (Spec.set_bits 8 (_apply_des_parity_to_7bits s)) = true
  /\ Z.shiftr (_apply_des_parity_to_7bits s) 1 = s.
Proof.
  intros Hs. pose proof parity_table as T.
  rewrite forallb_forall in T. specialize (T s).
  assert (Hin : In s (map Z.of_nat (seq 0 128))).
  { apply in_map_iff. exists (Z.to_nat s). split; [lia|]. apply in_seq. lia. }
  apply T in Hin. repeat (apply andb_prop in Hin as [Hin ?]).
  repeat split; try assumption.
  - now apply Z.eqb_eq.
  - now apply Z.leb_le.
  - now apply Z.ltb_lt.
  - now apply Z.eqb_eq.
Qed.

(** The group the loop extracts in iteration [i]. *)
Lemma segment_range (key56 shift : Z) : 0 <= Z.land (Z.shiftr key56 shift) 0x7F < 128.
Proof.
  change 0x7F with (Z.ones 7). rewrite Z.land_ones by lia.
  apply Z.mod_pos_bound. lia.
Qed.

Lemma segment_group (key56 : Z) (i : nat) :
  (i < 8)%nat ->
  Z.land (Z.shiftr key56 (7 * (7 - Z.of_nat i))) 0x7F = Spec.group key56 i.
Proof.
  intros Hi. unfold Spec.group. change 0x7F with (Z.ones 7).
  rewrite Z.land_ones by lia. rewrite Z.shiftr_div_pow2 by lia. reflexivity.
Qed.

Lemma bytearray_setitem_ok (out : bytes) (i : nat) (v : Z) :
  (i < length out)%nat -> 0 <= v < 256 ->
  bytearray_setitem out i v = Ok (<[i := Spec.to_byte v]> out).
Proof.
  intros Hi Hv. unfold bytearray_setitem, Spec.to_byte.
  destruct (decide (i < length out)%nat) as [_|]; [|contradiction].
  destruct (int_to_byte_in_range v Hv) as (b & -> & _). reflexivity.
Qed.

(** The loop of [make_des_key_from_7_bytes] never raises and fills the
    eight slots in order. *)
Lemma make_des_key_explicit (seven : bytes) :
  length seven = 7%nat ->
  make_des_key_from_7_bytes seven
  = Ok (map (fun i => Spec.to_byte (_apply_des_parity_to_7bits
               (Z.land (Z.shiftr (int_from_bytes_big seven) (7 * (7 - Z.of_nat i))) 0x7F)))
            (seq 0 8)).
Proof.
  intros Hlen. unfold make_des_key_from_7_bytes. rewrite Hlen.
  cbn [Nat.eqb negb]. generalize (int_from_bytes_big seven) as key56. intros key56.
  unfold bytearray. cbn [replicate seq for_each].
  repeat (rewrite bytearray_setitem_ok;
          [ cbn [bind list_insert insert]
          | cbn [length]; lia
          | apply parity_facts, segment_range ]).
  reflexivity.
Qed.

Lemma byte_val_to_byte (v : Z) : 0 <= v < 256 -> byte_val (Spec.to_byte v) = v.
Proof.
  intros Hv. unfold Spec.to_byte.
  destruct (int_to_byte_in_range v Hv) as (b & -> & Hb). exact Hb.
Qed.

(** The eight groups, concatenated, give back a 56-bit integer. *)
Lemma regroup (k : Z) :
  0 <= k < 2 ^ 56 ->
  (((((((0 * 2 ^ 7 + (k / 2 ^ 49) mod 2 ^ 7) * 2 ^ 7 + (k / 2 ^ 42) mod 2 ^ 7) * 2 ^ 7
       + (k / 2 ^ 35) mod 2 ^ 7) * 2 ^ 7 + (k / 2 ^ 28) mod 2 ^ 7) * 2 ^ 7
       + (k / 2 ^ 21) mod 2 ^ 7) * 2 ^ 7 + (k / 2 ^ 14) mod 2 ^ 7) * 2 ^ 7
       + (k / 2 ^ 7) mod 2 ^ 7) * 2 ^ 7 + (k / 2 ^ 0) mod 2 ^ 7 = k.
Proof.
  intros Hk. Z.div_mod_to_equations. lia.
Qed.

Lemma high7_parity_byte (key56 : Z) (i : nat) :
  (i < 8)%nat ->
  Spec.high7 (Spec.to_byte (_apply_des_parity_to_7bits
     (Z.land (Z.shiftr key56 (7 * (7 - Z.of_nat i))) 0x7F)))
  = Spec.group key56 i.
Proof.
  intros Hi. unfold Spec.high7.
  destruct (parity_facts _ (segment_range key56 (7 * (7 - Z.of_nat i)))) as (_ & Hr & _ & Hs).
  rewrite byte_val_to_byte by exact Hr. rewrite Hs. now apply segment_group.
Qed.

Lemma recover_make_des_key (seven key8 : bytes) :
  length seven = 7%nat ->
  make_des_key_from_7_bytes seven = Ok key8 ->
  Spec.recover_key_material key8 = seven.
Proof.
  intros Hlen Hk. rewrite make_des_key_explicit in Hk by exact Hlen.
  injection Hk as <-. unfold Spec.recover_key_material, Spec.concat_high7.
  cbn [seq map fold_left].
  rewrite !high7_parity_byte by lia. unfold Spec.group.
  change (7 * (7 - Z.of_nat 0)) with 49. change (7 * (7 - Z.of_nat 1)) with 42.
  change (7 * (7 - Z.of_nat 2)) with 35. change (7 * (7 - Z.of_nat 3)) with 28.
  change (7 * (7 - Z.of_nat 4)) with 21. change (7 * (7 - Z.of_nat 5)) with 14.
  change (7 * (7 - Z.of_nat 6)) with 7. change (7 * (7 - Z.of_nat 7)) with 0.
  pose proof (int_from_bytes_big_range seven) as Hr. rewrite Hlen in Hr.
  rewrite regroup by exact Hr.
  rewrite <- Hlen at 1. apply int_to_bytes_from_bytes.
Qed.

(** In terms of the reference definition. *)
Lemma make_des_key_reference (seven : bytes) :
  length seven = 7%nat ->
  make_des_key_from_7_bytes seven = Ok (map Spec.to_byte (Spec.key_expansion seven)).
Proof.
  intros Hlen. rewrite make_des_key_explicit by exact Hlen. f_equal.
  unfold Spec.key_expansion. rewrite map_map. apply map_ext_in.
  intros i Hi. apply in_seq in Hi. f_equal.
  destruct (parity_facts _ (segment_range (int_from_bytes_big seven)
                              (7 * (7 - Z.of_nat i)))) as (Ho & _).
  rewrite Ho, segment_group by lia. now rewrite int_from_bytes_big_spec.
Qed.

Lemma make_des_key_length (seven key8 : bytes) :
  length seven = 7%nat -> make_des_key_from_7_bytes seven = Ok key8 -> length key8 = 8%nat.
Proof.
  intros Hlen Hk. rewrite make_des_key_explicit in Hk by exact Hlen.
  now injection Hk as <-.
Qed.

Lemma make_des_key_guard (seven : bytes) :
  length seven <> 7%nat ->
  make_des_key_from_7_bytes seven
  = Raise (ValueError "Нужно ровно 7 байт для DES-ключа").
Proof.
  intros Hlen. unfold make_des_key_from_7_bytes.
  apply Nat.eqb_neq in Hlen. now rewrite Hlen.
Qed.

(** C5. For every 7-byte input, the key [make_des_key_from_7_bytes] returns
    is the one of the reference definition: the input read as a 56-bit
    big-endian integer, cut into eight 7-bit groups, most significant
    first, each shifted left by one with its odd-parity bit in the lowest
    position. *)
Theorem key_expansion_matches_reference (seven : bytes) :
  length seven = 7%nat ->
  exists key8,
    make_des_key_from_7_bytes seven = Ok key8
    /\ map byte_val key8 = Spec.key_expansion seven.
Proof.
  intros Hlen. eexists. split; [now apply make_des_key_explicit|].
  rewrite map_map. unfold Spec.key_expansion. apply map_ext_in.
  intros i Hi. apply in_seq in Hi.
  destruct (parity_facts _ (segment_range (int_from_bytes_big seven)
                              (7 * (7 - Z.of_nat i)))) as (Ho & Hr & _).
  rewrite byte_val_to_byte by exact Hr. rewrite Ho.
  rewrite segment_group by lia. now rewrite int_from_bytes_big_spec.
Qed.

Lemma key_expansion_matches_reference_witness :
  exists key8,
    make_des_key_from_7_bytes ["001"; "002"; "003"; "004"; "005"; "006"; "007"]%byte = Ok key8
    /\ map byte_val key8
       = Spec.key_expansion ["001"; "002"; "003"; "004"; "005"; "006"; "007"]%byte.
Proof. apply key_expansion_matches_reference. reflexivity. Defined.

(** C6. For every 7-byte input, the key has 8 bytes and each of them has an
    odd number of set bits. *)
Theorem key_expansion_odd_parity (seven : bytes) :
  length seven = 7%nat ->
  exists key8,
    make_des_key_from_7_bytes seven = Ok key8
    /\ length key8 = 8%nat
    /\ Forall Spec.odd_parity key8.
Proof.
  intros Hlen. eexists. split; [now apply make_des_key_explicit|].
  split; [reflexivity|].
  apply Forall_map, List.Forall_forall. intros i _. unfold Spec.odd_parity.
  destruct (parity_facts _ (segment_range (int_from_bytes_big seven)
                              (7 * (7 - Z.of_nat i)))) as (_ & Hr & Hodd & _).
  now rewrite byte_val_to_byte.
Qed.

Lemma key_expansion_odd_parity_witness :
  exists key8,
    make_des_key_from_7_bytes ["255"; "000"; "128"; "001"; "170"; "085"; "016"]%byte = Ok key8
    /\ length key8 = 8%nat
    /\ Forall Spec.odd_parity key8.
Proof. apply key_expansion_odd_parity. reflexivity. Defined.

(** C10. Key Expansion is injective on 7-byte inputs: two distinct inputs
    get distinct keys, and each input is recovered from its key by
    concatenating the high 7 bits of the eight key bytes. *)
Theorem key_expansion_injective (seven1 seven2 : bytes) :
  length seven1 = 7%nat -> length seven2 = 7%nat -> seven1 <> seven2 ->
  exists key1 key2,
    make_des_key_from_7_bytes seven1 = Ok key1
    /\ make_des_key_from_7_bytes seven2 = Ok key2
    /\ Spec.recover_key_material key1 = seven1
    /\ Spec.recover_key_material key2 = seven2
    /\ key1 <> key2.
Proof.
  intros H1 H2 Hne.
  pose proof (make_des_key_explicit seven1 H1) as E1.
  pose proof (make_des_key_explicit seven2 H2) as E2.
  eexists. eexists. split; [exact E1|]. split; [exact E2|].
  pose proof (recover_make_des_key _ _ H1 E1) as R1.
  pose proof (recover_make_des_key _ _ H2 E2) as R2.
  split; [exact R1|]. split; [exact R2|].
  intros Heq. apply Hne. rewrite <- R1, <- R2. now rewrite Heq.
Qed.

Lemma key_expansion_injective_witness :
  exists key1 key2,
    make_des_key_from_7_bytes ["001"; "002"; "003"; "004"; "005"; "006"; "007"]%byte = Ok key1
    /\ make_des_key_from_7_bytes ["001"; "002"; "003"; "004"; "005"; "006"; "008"]%byte = Ok key2
    /\ Spec.recover_key_material key1 = ["001"; "002"; "003"; "004"; "005"; "006"; "007"]%byte
    /\ Spec.recover_key_material key2 = ["001"; "002"; "003"; "004"; "005"; "006"; "008"]%byte
    /\ key1 <> key2.
Proof.
  apply key_expansion_injective; [reflexivity | reflexivity | discriminate].
Defined.

End KeyExpansion.

(** ** The stand-in primitives have the expected sizes *)

Module DemoFacts.
Import Py.

Lemma fit_length (n : nat) (m : bytes) : length (Demo.fit n m) = n.
Proof.
  unfold Demo.fit. rewrite length_take, length_app, length_replicate. lia.
Qed.

Lemma md5_digest16 : Spec.digest16 Demo.md5.
Proof. intros m. apply fit_length. Qed.

Lemma sha1_digest_at_least8 : Spec.digest_at_least8 Demo.sha1.
Proof. intros m. unfold Demo.sha1. rewrite fit_length. lia. Qed.

Lemma DES_block_cipher : Spec.block_cipher Demo.DES_encrypt_block.
Proof.
  intros block key Hb Hk. unfold Demo.DES_encrypt_block.
  rewrite Hb, Hk. cbn [Nat.eqb negb orb]. eexists. split; [reflexivity|].
  rewrite length_zip_with. lia.
Qed.

End DemoFacts.

(** ** The protocol engine *)

Module Engine.
Import Py MSCHAPv2 PyFacts.

Lemma encode_ascii_ok (s : str) : Spec.is_ascii s -> exists bs, encode_ascii s = Ok bs.
Proof.
  induction 1 as [|cp s Hcp _ (bs & IH)]; [now exists []|].
  cbn [encode_ascii]. apply N.ltb_lt in Hcp as Hlt. rewrite Hlt.
  destruct (Byte.of_N cp) as [b|] eqn:E.
  - rewrite IH. now eexists.
  - apply Byte.of_N_None_iff in E. lia.
Qed.

Lemma encode_utf16le_ok (s : str) :
  Spec.no_surrogate s -> exists bs, encode_utf16le s = Ok bs.
Proof.
  induction 1 as [|cp s Hcp _ (bs & IH)]; [now exists []|].
  cbn [encode_utf16le]. rewrite IH.
  destruct ((cp <? 0xD800) || ((0xE000 <=? cp) && (cp <? 0x10000)))%N eqn:E1;
    [now eexists|].
  destruct ((0x10000 <=? cp) && (cp <? 0x110000))%N eqn:E2; [now eexists|].
  exfalso.
  apply orb_false_iff in E1 as [E1a E1b]. apply N.ltb_ge in E1a.
  apply andb_false_iff in E1b. apply andb_false_iff in E2.
  rewrite !N.leb_gt, !N.ltb_ge in *. lia.
Qed.

(** A lone surrogate makes the [utf-16-le] codec raise. *)
Lemma encode_utf16le_surrogate (cp : N) (s : str) :
  (0xD800 <= cp < 0xE000)%N ->
  encode_utf16le (cp :: s) = Raise (UnicodeEncodeError "utf-16-le").
Proof.
  intros Hcp. cbn [encode_utf16le].
  replace (cp <? 0xD800)%N with false by (symmetry; apply N.ltb_ge; lia).
  replace (0xE000 <=? cp)%N with false by (symmetry; apply N.leb_gt; lia).
  replace (0x10000 <=? cp)%N with false by (symmetry; apply N.leb_gt; lia).
  reflexivity.
Qed.

Section Primitives.

Variable md5 : bytes -> bytes.
Variable sha1 : bytes -> bytes.
Variable DES_encrypt_block : bytes -> bytes -> result bytes.

Lemma challenge_hash_guard (peer auth : bytes) (username : str) :
  length peer <> 16%nat \/ length auth <> 16%nat ->
  challenge_hash sha1 peer auth username
  = Raise (ValueError "peer_challenge и auth_challenge должны быть по 16 байт").
Proof.
  intros H. unfold challenge_hash.
  destruct (length peer =? 16)%nat eqn:Ep; [|reflexivity].
  destruct (length auth =? 16)%nat eqn:Ea; [|reflexivity].
  apply Nat.eqb_eq in Ep, Ea. destruct H; contradiction.
Qed.

Lemma challenge_hash_sized (peer auth : bytes) (username : str) :
  length peer = 16%nat -> length auth = 16%nat ->
  challenge_hash sha1 peer auth username
  = bind (encode_ascii username) (fun user_bytes =>
      Ok (take 8 (sha1 (peer ++ auth ++ user_bytes)))).
Proof.
  intros Hp Ha. unfold challenge_hash, hash_new, hash_update.
  rewrite Hp, Ha. cbn [Nat.eqb negb orb app].
  destruct (encode_ascii username); cbn [bind]; [|reflexivity].
  now rewrite <- app_assoc.
Qed.

Lemma challenge_hash_length (peer auth : bytes) (username : str) (chall8 : bytes) :
  Spec.digest_at_least8 sha1 ->
  challenge_hash sha1 peer auth username = Ok chall8 -> length chall8 = 8%nat.
Proof.
  intros Hsha. unfold challenge_hash.
  destruct (negb _ || negb _); [discriminate|].
  destruct (encode_ascii username); cbn [bind]; [|discriminate].
  intros [= <-]. rewrite length_take.
  apply Nat.min_l, Hsha.
Qed.

Lemma challenge_response_guard_challenge (challenge8 nt_hash : bytes) :
  length challenge8 <> 8%nat ->
  challenge_response DES_encrypt_block challenge8 nt_hash
  = Raise (ValueError "challenge8 должен быть 8 байт").
Proof.
  intros H. unfold challenge_response. apply Nat.eqb_neq in H. now rewrite H.
Qed.

Lemma challenge_response_guard_digest (challenge8 nt_hash : bytes) :
  length challenge8 = 8%nat -> length nt_hash <> 16%nat ->
  challenge_response DES_encrypt_block challenge8 nt_hash
  = Raise (ValueError "NT hash должен быть 16 байт").
Proof.
  intros Hc H. unfold challenge_response. apply Nat.eqb_neq in H. now rewrite Hc, H.
Qed.

(** On buffers of the right sizes the loop of [challenge_response] is the
    reference transform. *)
Lemma challenge_response_reference (challenge8 nt_hash : bytes) :
  length challenge8 = 8%nat -> length nt_hash = 16%nat ->
  challenge_response DES_encrypt_block challenge8 nt_hash
  = Spec.response_transform DES_encrypt_block challenge8 nt_hash.
Proof.
  intros Hc Hh. unfold challenge_response, Spec.response_transform.
  rewrite Hc, Hh. cbn [Nat.eqb negb replicate seq for_each].
  unfold slice. cbn [Nat.mul Nat.add Nat.sub drop].
  set (z := nt_hash ++ _).
  assert (Hz : length z = 21%nat) by (subst z; rewrite length_app, Hh; reflexivity).
  rewrite !KeyExpansion.make_des_key_reference
    by (rewrite ?length_take, ?length_drop, Hz; reflexivity).
  cbn [bind].
  destruct (DES_encrypt_block challenge8 _) as [out1|]; cbn [bind]; [|reflexivity].
  destruct (DES_encrypt_block challenge8 _) as [out2|]; cbn [bind]; [|reflexivity].
  destruct (DES_encrypt_block challenge8 _) as [out3|]; cbn [bind]; [|reflexivity].
  now rewrite app_nil_l, <- app_assoc.
Qed.

Lemma reference_key_length (chunk : bytes) :
  length (map Spec.to_byte (Spec.key_expansion chunk)) = 8%nat.
Proof. reflexivity. Qed.

Lemma challenge_response_total (challenge8 nt_hash : bytes) :
  Spec.block_cipher DES_encrypt_block ->
  length challenge8 = 8%nat -> length nt_hash = 16%nat ->
  exists resp, challenge_response DES_encrypt_block challenge8 nt_hash = Ok resp
               /\ length resp = 24%nat.
Proof.
  intros Hdes Hc Hh. rewrite challenge_response_reference by assumption.
  unfold Spec.response_transform.
  destruct (Hdes challenge8 _ Hc (reference_key_length
              (take 7 (nt_hash ++ ["000"; "000"; "000"; "000"; "000"]%byte))))
    as (out1 & -> & L1).
  destruct (Hdes challenge8 _ Hc (reference_key_length
              (take 7 (drop 7 (nt_hash ++ ["000"; "000"; "000"; "000"; "000"]%byte)))))
    as (out2 & -> & L2).
  destruct (Hdes challenge8 _ Hc (reference_key_length
              (take 7 (drop 14 (nt_hash ++ ["000"; "000"; "000"; "000"; "000"]%byte)))))
    as (out3 & -> & L3).
  cbn [bind]. eexists. split; [reflexivity|].
  rewrite !length_app. lia.
Qed.

Lemma verify_wrong_length (auth peer : bytes) (identity : str) (digest r : bytes) :
  length r <> 24%nat ->
  verify_nt_response sha1 DES_encrypt_block auth peer identity digest r = Ok false.
Proof.
  intros Hr. unfold verify_nt_response. apply Nat.eqb_neq in Hr. now rewrite Hr.
Qed.

Lemma verify_recomputes (auth peer : bytes) (identity : str) (digest r : bytes) :
  length r = 24%nat ->
  verify_nt_response sha1 DES_encrypt_block auth peer identity digest r
  = bind (challenge_hash sha1 peer auth identity) (fun chall8 =>
    bind (challenge_response DES_encrypt_block chall8 digest) (fun expected =>
    Ok (bool_decide (expected = r)))).
Proof.
  intros Hr. unfold verify_nt_response. now rewrite Hr.
Qed.

Lemma verify_bad_challenge (auth peer : bytes) (identity : str) (digest r : bytes) :
  length r = 24%nat ->
  length peer <> 16%nat \/ length auth <> 16%nat ->
  verify_nt_response sha1 DES_encrypt_block auth peer identity digest r
  = Raise (ValueError "peer_challenge и auth_challenge должны быть по 16 байт").
Proof.
  intros Hr Hc. rewrite verify_recomputes by exact Hr.
  now rewrite challenge_hash_guard by exact Hc.
Qed.

(** An accepted response is the recomputed one, and it has 24 bytes. *)
Lemma verify_true_inv (auth peer : bytes) (identity : str) (digest r : bytes) :
  verify_nt_response sha1 DES_encrypt_block auth peer identity digest r = Ok true ->
  length r = 24%nat
  /\ bind (challenge_hash sha1 peer auth identity) (fun chall8 =>
        challenge_response DES_encrypt_block chall8 digest) = Ok r.
Proof.
  intros Hv. destruct (decide (length r = 24%nat)) as [Hr|Hr].
  - split; [exact Hr|]. rewrite verify_recomputes in Hv by exact Hr.
    destruct (challenge_hash sha1 peer auth identity) as [c|]; cbn [bind] in *;
      [|discriminate].
    destruct (challenge_response DES_encrypt_block c digest) as [e|]; cbn [bind] in *;
      [|discriminate].
    injection Hv as Hv. apply bool_decide_eq_true in Hv. now subst.
  - rewrite verify_wrong_length in Hv by exact Hr. discriminate.
Qed.

Lemma verify_other (auth peer : bytes) (identity : str) (digest r r' : bytes) :
  verify_nt_response sha1 DES_encrypt_block auth peer identity digest r = Ok true ->
  r' <> r ->
  verify_nt_response sha1 DES_encrypt_block auth peer identity digest r' = Ok false.
Proof.
  intros Hv Hne. apply verify_true_inv in Hv as [_ He].
  destruct (decide (length r' = 24%nat)) as [Hr|Hr].
  - rewrite verify_recomputes by exact Hr.
    destruct (challenge_hash sha1 peer auth identity) as [c|]; cbn [bind] in *;
      [|discriminate].
    rewrite He. cbn [bind]. f_equal. apply bool_decide_eq_false. congruence.
  - now apply verify_wrong_length.
Qed.

End Primitives.

(** Flipping a bit of a byte changes the byte. *)
Lemma flip_byte_bit_neq (b : byte) (k : nat) : (k < 8)%nat -> Spec.flip_byte_bit b k <> b.
Proof.
  intros Hk.
  assert (T : forallb (fun k => negb (Byte.eqb (Spec.flip_byte_bit b k) b)) (seq 0 8) = true)
    by (destruct b; vm_compute; reflexivity).
  rewrite forallb_forall in T. specialize (T k).
  assert (Hin : In k (seq 0 8)) by (apply in_seq; lia).
  apply T in Hin. intros Heq. rewrite Heq in Hin.
  now rewrite (Byte.byte_dec_lb eq_refl) in Hin.
Qed.

Lemma flip_bit_length (r : bytes) (i : nat) : length (Spec.flip_bit r i) = length r.
Proof. unfold Spec.flip_bit. apply length_alter. Qed.

Lemma flip_bit_neq (r : bytes) (i : nat) :
  (i < 8 * length r)%nat -> Spec.flip_bit r i <> r.
Proof.
  intros Hi Heq.
  assert (Hj : (i / 8 < length r)%nat) by (apply Nat.Div0.div_lt_upper_bound; lia).
  destruct (lookup_lt_is_Some_2 r (i / 8)%nat Hj) as [b Hb].
  assert (Hf : Spec.flip_bit r i !! (i / 8)%nat = Some (Spec.flip_byte_bit b (i mod 8))).
  { unfold Spec.flip_bit. rewrite list_lookup_alter_eq, Hb. reflexivity. }
  assert (Hm : (i mod 8 < 8)%nat) by (apply Nat.mod_upper_bound; lia).
  rewrite Heq, Hb in Hf.
  assert (Hf' : Spec.flip_byte_bit b (i mod 8) = b) by congruence.
  exact (flip_byte_bit_neq _ _ Hm Hf').
Qed.

End Engine.

(** ** Properties of the protocol engine *)

Module Protocol.
Import Py MSCHAPv2 PyFacts Engine.

Section Primitives.

Variable md5 : bytes -> bytes.
Variable sha1 : bytes -> bytes.
Variable DES_encrypt_block : bytes -> bytes -> result bytes.

(** C1, as amended. With a 16-byte credential digest, a challenge digest of
    at least 8 bytes and an 8-byte block cipher: for 16-byte challenges, an
    ASCII identity and a password without surrogate code points, the
    digest and the response are computed, and verifying that response
    against that digest returns true. *)
Theorem roundtrip (auth peer : bytes) (identity password : str) :
  Spec.digest16 md5 -> Spec.digest_at_least8 sha1 -> Spec.block_cipher DES_encrypt_block ->
  length auth = 16%nat -> length peer = 16%nat ->
  Spec.is_ascii identity -> Spec.no_surrogate password ->
  exists digest response,
    nt_password_hash md5 password = Ok digest
    /\ generate_nt_response md5 sha1 DES_encrypt_block auth peer identity password = Ok response
    /\ verify_nt_response sha1 DES_encrypt_block auth peer identity digest response = Ok true.
Proof.
  intros Hmd5 Hsha Hdes Ha Hp Hid Hpw.
  destruct (encode_utf16le_ok password Hpw) as (pw_bytes & Epw).
  destruct (encode_ascii_ok identity Hid) as (user_bytes & Eid).
  assert (Ed : nt_password_hash md5 password = Ok (md5 pw_bytes)).
  { unfold nt_password_hash. now rewrite Epw. }
  assert (Ec : challenge_hash sha1 peer auth identity
               = Ok (take 8 (sha1 (peer ++ auth ++ user_bytes)))).
  { rewrite challenge_hash_sized by assumption. now rewrite Eid. }
  pose proof (challenge_hash_length sha1 _ _ _ _ Hsha Ec) as Lc.
  destruct (challenge_response_total DES_encrypt_block _ (md5 pw_bytes) Hdes Lc (Hmd5 _))
    as (resp & Er & Lr).
  exists (md5 pw_bytes), resp. split; [exact Ed|].
  split.
  - unfold generate_nt_response. rewrite Ed, Ec. exact Er.
  - rewrite verify_recomputes by exact Lr. rewrite Ec. cbn [bind].
    rewrite Er. cbn [bind]. f_equal. now apply bool_decide_eq_true.
Qed.

(** C2. [verify_nt_response] returns false, without raising, on a response
    that is not 24 bytes long; on a 24-byte response (with 16-byte
    challenges and a 16-byte digest) it returns true exactly when the
    recomputed expected response is that response; and when moreover the
    identity is ASCII and the primitives have their sizes, the expected
    response exists, has 24 bytes, and the result is its comparison with
    the received one. *)
Theorem verify_fail_closed_and_exact
    (auth peer : bytes) (identity : str) (digest r : bytes) :
  (length r <> 24%nat ->
     verify_nt_response sha1 DES_encrypt_block auth peer identity digest r = Ok false)
  /\ (length r = 24%nat -> length auth = 16%nat -> length peer = 16%nat ->
      length digest = 16%nat ->
      (verify_nt_response sha1 DES_encrypt_block auth peer identity digest r = Ok true
       <-> bind (challenge_hash sha1 peer auth identity) (fun chall8 =>
             challenge_response DES_encrypt_block chall8 digest) = Ok r))
  /\ (length r = 24%nat -> length auth = 16%nat -> length peer = 16%nat ->
      length digest = 16%nat -> Spec.is_ascii identity ->
      Spec.digest_at_least8 sha1 -> Spec.block_cipher DES_encrypt_block ->
      exists expected,
        bind (challenge_hash sha1 peer auth identity) (fun chall8 =>
          challenge_response DES_encrypt_block chall8 digest) = Ok expected
        /\ length expected = 24%nat
        /\ verify_nt_response sha1 DES_encrypt_block auth peer identity digest r
           = Ok (bool_decide (expected = r))).
Proof.
  split; [apply verify_wrong_length|]. split.
  - intros Hr _ _ _. split.
    + intros Hv. now apply verify_true_inv in Hv as [_ He].
    + intros He. rewrite verify_recomputes by exact Hr.
      destruct (challenge_hash sha1 peer auth identity) as [c|]; cbn [bind] in *;
        [|discriminate].
      rewrite He. cbn [bind]. f_equal. now apply bool_decide_eq_true.
  - intros Hr Ha Hp Hd Hid Hsha Hdes.
    destruct (encode_ascii_ok identity Hid) as (user_bytes & Eid).
    assert (Ec : challenge_hash sha1 peer auth identity
                 = Ok (take 8 (sha1 (peer ++ auth ++ user_bytes)))).
    { rewrite challenge_hash_sized by assumption. now rewrite Eid. }
    pose proof (challenge_hash_length sha1 _ _ _ _ Hsha Ec) as Lc.
    destruct (challenge_response_total DES_encrypt_block _ digest Hdes Lc Hd)
      as (expected & Ee & Le).
    exists expected. rewrite verify_recomputes by exact Hr.
    rewrite Ec. cbn [bind]. rewrite Ee. cbn [bind]. auto.
Qed.

(** C3. If [verify_nt_response] accepts a response, then the response with
    any one of its bits flipped is rejected: the call returns false. *)
Theorem tamper_sensitivity
    (auth peer : bytes) (identity : str) (digest r : bytes) (i : nat) :
  verify_nt_response sha1 DES_encrypt_block auth peer identity digest r = Ok true ->
  (i < 8 * length r)%nat ->
  length r = 24%nat
  /\ verify_nt_response sha1 DES_encrypt_block auth peer identity digest (Spec.flip_bit r i)
     = Ok false.
Proof.
  intros Hv Hi. split.
  - now apply verify_true_inv in Hv as [Hr _].
  - apply verify_other with (r := r); [exact Hv|]. now apply flip_bit_neq.
Qed.

(** C7. On an 8-byte challenge and a 16-byte digest, [challenge_response]
    is the reference transform: 5 zero bytes appended, three 7-byte chunks,
    each expanded to a key, the same challenge encrypted once under each
    key, the outputs concatenated in order. With an 8-byte block cipher the
    result has 24 bytes. The result is a function of the two buffers and
    of the cipher. *)
Theorem response_transform_matches_reference (challenge8 digest16 : bytes) :
  length challenge8 = 8%nat -> length digest16 = 16%nat ->
  challenge_response DES_encrypt_block challenge8 digest16
  = Spec.response_transform DES_encrypt_block challenge8 digest16
  /\ (Spec.block_cipher DES_encrypt_block ->
      exists resp, challenge_response DES_encrypt_block challenge8 digest16 = Ok resp
                   /\ length resp = 24%nat).
Proof.
  intros Hc Hd. split.
  - now apply challenge_response_reference.
  - intros Hdes. now apply challenge_response_total.
Qed.

(** C8. Each length guard comes first: with a challenge that is not 16
    bytes long [challenge_hash] raises [ValueError], whatever the identity
    (also one the [ascii] codec would reject); with a challenge that is not
    8 bytes, or else a digest that is not 16 bytes, [challenge_response]
    raises [ValueError], whatever the cipher does (also one that raises);
    with an input that is not 7 bytes [make_des_key_from_7_bytes] raises
    [ValueError]. *)
Theorem length_guards :
  (forall (peer auth : bytes) (identity : str),
     length peer <> 16%nat \/ length auth <> 16%nat ->
     challenge_hash sha1 peer auth identity
     = Raise (ValueError "peer_challenge и auth_challenge должны быть по 16 байт"))
  /\ (forall challenge8 digest16 : bytes,
        length challenge8 <> 8%nat ->
        challenge_response DES_encrypt_block challenge8 digest16
        = Raise (ValueError "challenge8 должен быть 8 байт"))
  /\ (forall challenge8 digest16 : bytes,
        length challenge8 = 8%nat -> length digest16 <> 16%nat ->
        challenge_response DES_encrypt_block challenge8 digest16
        = Raise (ValueError "NT hash должен быть 16 байт"))
  /\ (forall seven : bytes,
        length seven <> 7%nat ->
        make_des_key_from_7_bytes seven
        = Raise (ValueError "Нужно ровно 7 байт для DES-ключа")).
Proof.
  split; [apply challenge_hash_guard|].
  split; [apply challenge_response_guard_challenge|].
  split; [apply challenge_response_guard_digest|].
  apply KeyExpansion.make_des_key_guard.
Qed.

(** C9. The fail-closed branch of [verify_nt_response] covers the response
    length only: there is a call with a 24-byte response and a challenge of
    the wrong size on which it raises the [ValueError] of [challenge_hash]
    instead of returning false. *)
Theorem verify_raises_on_bad_challenge :
  exists (auth peer : bytes) (identity : str) (digest r : bytes),
    length r = 24%nat
    /\ (length peer <> 16%nat \/ length auth <> 16%nat)
    /\ verify_nt_response sha1 DES_encrypt_block auth peer identity digest r
       = Raise (ValueError "peer_challenge и auth_challenge должны быть по 16 байт").
Proof.
  exists (Demo.zeros 16), (Demo.zeros 15), Demo.identity, (Demo.zeros 16), (Demo.zeros 24).
  split; [reflexivity|]. split; [left; discriminate|].
  apply verify_bad_challenge; [reflexivity | left; discriminate].
Qed.

End Primitives.

Lemma roundtrip_witness :
  exists digest response,
    nt_password_hash Demo.md5 Demo.password = Ok digest
    /\ generate_nt_response Demo.md5 Demo.sha1 Demo.DES_encrypt_block
         Demo.auth_challenge Demo.peer_challenge Demo.identity Demo.password = Ok response
    /\ verify_nt_response Demo.sha1 Demo.DES_encrypt_block
         Demo.auth_challenge Demo.peer_challenge Demo.identity digest response = Ok true.
Proof.
  apply roundtrip.
  - apply DemoFacts.md5_digest16.
  - apply DemoFacts.sha1_digest_at_least8.
  - apply DemoFacts.DES_block_cipher.
  - reflexivity.
  - reflexivity.
  - apply (bool_decide_unpack _). vm_compute. exact I.
  - apply (bool_decide_unpack _). vm_compute. exact I.
Defined.

(** The claim C1 as written also covers passwords that are not valid
    UTF-16: on a lone surrogate, [nt_password_hash] and
    [generate_nt_response] raise, so there is no digest and no response to
    verify. *)
Lemma roundtrip_lone_surrogate :
  nt_password_hash Demo.md5 [0xD800%N] = Raise (UnicodeEncodeError "utf-16-le")
  /\ generate_nt_response Demo.md5 Demo.sha1 Demo.DES_encrypt_block
       Demo.auth_challenge Demo.peer_challenge Demo.identity [0xD800%N]
     = Raise (UnicodeEncodeError "utf-16-le")
  /\ ~ (exists digest response,
          nt_password_hash Demo.md5 [0xD800%N] = Ok digest
          /\ generate_nt_response Demo.md5 Demo.sha1 Demo.DES_encrypt_block
               Demo.auth_challenge Demo.peer_challenge Demo.identity [0xD800%N]
             = Ok response
          /\ verify_nt_response Demo.sha1 Demo.DES_encrypt_block
               Demo.auth_challenge Demo.peer_challenge Demo.identity digest response
             = Ok true).
Proof.
  split; [reflexivity|]. split; [reflexivity|].
  intros (digest & response & Hd & _). discriminate Hd.
Qed.

Lemma verify_fail_closed_and_exact_witness :
  verify_nt_response Demo.sha1 Demo.DES_encrypt_block
    Demo.auth_challenge Demo.peer_challenge Demo.identity Demo.digest (Demo.zeros 23)
  = Ok false
  /\ (verify_nt_response Demo.sha1 Demo.DES_encrypt_block
        Demo.auth_challenge Demo.peer_challenge Demo.identity Demo.digest Demo.response
      = Ok true
      <-> bind (challenge_hash Demo.sha1 Demo.peer_challenge Demo.auth_challenge Demo.identity)
            (fun chall8 => challenge_response Demo.DES_encrypt_block chall8 Demo.digest)
          = Ok Demo.response)
  /\ (exists expected,
        bind (challenge_hash Demo.sha1 Demo.peer_challenge Demo.auth_challenge Demo.identity)
          (fun chall8 => challenge_response Demo.DES_encrypt_block chall8 Demo.digest)
        = Ok expected
        /\ length expected = 24%nat
        /\ verify_nt_response Demo.sha1 Demo.DES_encrypt_block
             Demo.auth_challenge Demo.peer_challenge Demo.identity Demo.digest Demo.response
           = Ok (bool_decide (expected = Demo.response))).
Proof.
  split.
  - apply (verify_fail_closed_and_exact Demo.sha1 Demo.DES_encrypt_block).
    discriminate.
  - destruct (verify_fail_closed_and_exact Demo.sha1 Demo.DES_encrypt_block
                Demo.auth_challenge Demo.peer_challenge Demo.identity Demo.digest
                Demo.response) as (_ & H2 & H3).
    split.
    + apply H2; reflexivity.
    + apply H3; try reflexivity.
      * apply (bool_decide_unpack _). vm_compute. exact I.
      * apply DemoFacts.sha1_digest_at_least8.
      * apply DemoFacts.DES_block_cipher.
Defined.

Lemma tamper_sensitivity_witness :
  length Demo.response = 24%nat
  /\ verify_nt_response Demo.sha1 Demo.DES_encrypt_block
       Demo.auth_challenge Demo.peer_challenge Demo.identity Demo.digest
       (Spec.flip_bit Demo.response 77)
     = Ok false.
Proof.
  apply tamper_sensitivity.
  - vm_compute. reflexivity.
  - vm_compute. lia.
Defined.

Lemma response_transform_matches_reference_witness :
  challenge_response Demo.DES_encrypt_block (Demo.zeros 8) Demo.digest
  = Spec.response_transform Demo.DES_encrypt_block (Demo.zeros 8) Demo.digest
  /\ (exists resp, challenge_response Demo.DES_encrypt_block (Demo.zeros 8) Demo.digest
                  = Ok resp
                  /\ length resp = 24%nat).
Proof.
  destruct (response_transform_matches_reference Demo.DES_encrypt_block
              (Demo.zeros 8) Demo.digest eq_refl eq_refl) as (H1 & H2).
  split; [exact H1|]. apply H2, DemoFacts.DES_block_cipher.
Defined.

Lemma length_guards_witness :
  challenge_hash Demo.sha1 (Demo.zeros 15) Demo.auth_challenge [0xE9%N]
  = Raise (ValueError "peer_challenge и auth_challenge должны быть по 16 байт")
  /\ challenge_response Demo.DES_encrypt_block (Demo.zeros 9) Demo.digest
     = Raise (ValueError "challenge8 должен быть 8 байт")
  /\ challenge_response Demo.DES_encrypt_block (Demo.zeros 8) (Demo.zeros 20)
     = Raise (ValueError "NT hash должен быть 16 байт")
  /\ make_des_key_from_7_bytes (Demo.zeros 8)
     = Raise (ValueError "Нужно ровно 7 байт для DES-ключа").
Proof.
  destruct (length_guards Demo.sha1 Demo.DES_encrypt_block) as (H1 & H2 & H3 & H4).
  split; [apply H1; left; discriminate|].
  split; [apply H2; discriminate|].
  split; [apply H3; [reflexivity | discriminate]|].
  apply H4. discriminate.
Defined.

End Protocol.

(** ** Sessions and the [/auth/response] endpoint *)

Module Sessions.
Import Py Server.

Lemma get_session_live (mgr : AuthSessionManager) (sid : str) (sess : AuthSession) :
  _sessions mgr !! sid = Some sess -> get_session mgr sid = Ok sess.
Proof. intros H. unfold get_session. now rewrite H. Qed.

Lemma get_session_deleted (mgr : AuthSessionManager) (sid : str) :
  get_session (delete_session mgr sid) sid = Raise (KeyError "session not found").
Proof.
  unfold get_session, delete_session. cbn [_sessions]. now rewrite lookup_delete_eq.
Qed.

Lemma get_session_created (mgr : AuthSessionManager) (identity : str)
    (urandom16 : bytes) (uuid4 : str) :
  get_session (create_session mgr identity urandom16 uuid4).1
              (create_session mgr identity urandom16 uuid4).2
  = Ok (mkAuthSession identity urandom16).
Proof.
  unfold get_session, create_session. cbn [fst snd _sessions].
  now rewrite lookup_insert_eq.
Qed.

Section Endpoints.

Variable sha1 : bytes -> bytes.
Variable DES_encrypt_block : bytes -> bytes -> result bytes.
Variable b64decode : str -> result bytes.

(** Without a session under the identifier the request is rejected as
    "Invalid session_id", the state untouched. *)
Lemma auth_response_no_session (req : AuthResponseRequest) (st : ServerState) :
  _sessions (session_manager st) !! req_session_id req = None ->
  auth_response sha1 DES_encrypt_block b64decode req st
  = (Raise (HTTPException 400 "Invalid session_id"), st).
Proof.
  intros H. unfold auth_response, and_then, on_KeyError, read, lift,
    get_username, get_auth_challenge, get_session.
  now rewrite H.
Qed.

(** The identity check comes right after the session lookup; its rejection
    leaves the state untouched. *)
Lemma auth_response_mismatch (req : AuthResponseRequest) (st : ServerState)
    (sess : AuthSession) :
  _sessions (session_manager st) !! req_session_id req = Some sess ->
  username sess <> req_username req ->
  auth_response sha1 DES_encrypt_block b64decode req st
  = (Raise (HTTPException 400 "Username mismatch"), st).
Proof.
  intros H Hne. unfold auth_response, and_then, on_KeyError, read, lift, ret,
    get_username, get_auth_challenge, get_session.
  rewrite H. cbn [bind]. now rewrite bool_decide_eq_true_2 by exact Hne.
Qed.

(** Once the verification has run, whatever its verdict, the session is
    deleted. *)
Lemma auth_response_verified (req : AuthResponseRequest) (st : ServerState)
    (sess : AuthSession) (peer r : bytes) (user : User) (ok : bool) :
  _sessions (session_manager st) !! req_session_id req = Some sess ->
  username sess = req_username req ->
  b64decode (req_peer_challenge req) = Ok peer ->
  b64decode (req_nt_response req) = Ok r ->
  length peer = 16%nat -> length r = 24%nat ->
  db st !! req_username req = Some user ->
  MSCHAPv2.verify_nt_response sha1 DES_encrypt_block (auth_challenge sess) peer
    (req_username req) (nt_hash user) r = Ok ok ->
  auth_response sha1 DES_encrypt_block b64decode req st
  = (Ok (mkAuthResult ok),
     mkServerState (delete_session (session_manager st) (req_session_id req)) (db st)).
Proof.
  intros H Hu Hp Hr Lp Lr Hdb Hv.
  unfold auth_response, and_then, on_KeyError, on_Exception, read, lift, ret,
    update_sessions, get_username, get_auth_challenge, get_session.
  rewrite H. cbn [bind].
  rewrite bool_decide_eq_false_2 by (intros Hne; now apply Hne).
  rewrite Hp, Hr, Lp, Lr. cbn [Nat.eqb negb orb]. rewrite Hdb, Hv. reflexivity.
Qed.

(** C4, as amended. When a session is live for one identity and
    [/auth/response] is called on it with a different identity, the call is
    rejected with HTTP 400 "Username mismatch" and the server state is
    unchanged: the session is still there, and a second call with the same
    request is rejected in the same way, not as an unknown session. *)
Theorem identity_mismatch_keeps_session (req : AuthResponseRequest) (st : ServerState)
    (sess : AuthSession) :
  _sessions (session_manager st) !! req_session_id req = Some sess ->
  username sess <> req_username req ->
  (auth_response sha1 DES_encrypt_block b64decode req st).1
  = Raise (HTTPException 400 "Username mismatch")
  /\ (auth_response sha1 DES_encrypt_block b64decode req st).2 = st
  /\ get_session
       (session_manager (auth_response sha1 DES_encrypt_block b64decode req st).2)
       (req_session_id req)
     = Ok sess
  /\ (auth_response sha1 DES_encrypt_block b64decode req
        (auth_response sha1 DES_encrypt_block b64decode req st).2).1
     = Raise (HTTPException 400 "Username mismatch").
Proof.
  intros H Hne.
  rewrite !(auth_response_mismatch req st sess H Hne). cbn [fst snd].
  rewrite (auth_response_mismatch req st sess H Hne). cbn [fst].
  repeat split; try reflexivity. now apply get_session_live.
Qed.

(** A session that went through verification is gone: the same request,
    sent again, is answered "Invalid session_id". *)
Lemma auth_response_replay (req : AuthResponseRequest) (st : ServerState) :
  auth_response sha1 DES_encrypt_block b64decode req
    (mkServerState (delete_session (session_manager st) (req_session_id req)) (db st))
  = (Raise (HTTPException 400 "Invalid session_id"),
     mkServerState (delete_session (session_manager st) (req_session_id req)) (db st)).
Proof.
  apply auth_response_no_session. cbn [session_manager delete_session _sessions].
  apply lookup_delete_eq.
Qed.

End Endpoints.

Lemma identity_mismatch_keeps_session_witness :
  (Server.auth_response Demo.sha1 Demo.DES_encrypt_block Demo.b64decode
     Demo.other_identity_request Demo.server).1
  = Raise (HTTPException 400 "Username mismatch")
  /\ (Server.auth_response Demo.sha1 Demo.DES_encrypt_block Demo.b64decode
       Demo.other_identity_request Demo.server).2
     = Demo.server
  /\ get_session
       (session_manager
          (Server.auth_response Demo.sha1 Demo.DES_encrypt_block Demo.b64decode
             Demo.other_identity_request Demo.server).2)
       Demo.session_id
     = Ok (mkAuthSession Demo.identity Demo.auth_challenge)
  /\ (Server.auth_response Demo.sha1 Demo.DES_encrypt_block Demo.b64decode
       Demo.other_identity_request
       (Server.auth_response Demo.sha1 Demo.DES_encrypt_block Demo.b64decode
          Demo.other_identity_request Demo.server).2).1
     = Raise (HTTPException 400 "Username mismatch").
Proof.
  apply (identity_mismatch_keeps_session Demo.sha1 Demo.DES_encrypt_block Demo.b64decode
           Demo.other_identity_request Demo.server
           (mkAuthSession Demo.identity Demo.auth_challenge)).
  - apply lookup_insert_eq.
  - discriminate.
Defined.

(** The claim C4 as written: after the call with the other identity the
    session would be gone. On the server with one session for "alice" and
    a request naming "bob", the session is still found afterwards and the
    second call is not answered "Invalid session_id". *)
Lemma identity_mismatch_session_not_consumed :
  (Server.auth_response Demo.sha1 Demo.DES_encrypt_block Demo.b64decode
     Demo.other_identity_request Demo.server).1
  = Raise (HTTPException 400 "Username mismatch")
  /\ get_session
       (session_manager
          (Server.auth_response Demo.sha1 Demo.DES_encrypt_block Demo.b64decode
             Demo.other_identity_request Demo.server).2)
       Demo.session_id
     <> Raise (KeyError "session not found")
  /\ (Server.auth_response Demo.sha1 Demo.DES_encrypt_block Demo.b64decode
       Demo.other_identity_request
       (Server.auth_response Demo.sha1 Demo.DES_encrypt_block Demo.b64decode
          Demo.other_identity_request Demo.server).2).1
     <> Raise (HTTPException 400 "Invalid session_id").
Proof.
  assert (E : Server.auth_response Demo.sha1 Demo.DES_encrypt_block Demo.b64decode
                Demo.other_identity_request Demo.server
              = (Raise (HTTPException 400 "Username mismatch"), Demo.server)).
  { apply auth_response_mismatch with (sess := mkAuthSession Demo.identity Demo.auth_challenge).
    - apply lookup_insert_eq.
    - discriminate. }
  rewrite !E. cbn [fst snd]. rewrite E. cbn [fst].
  split; [reflexivity|]. split; [|discriminate].
  rewrite (get_session_live _ _ (mkAuthSession Demo.identity Demo.auth_challenge))
    by apply lookup_insert_eq.
  discriminate.
Qed.

End Sessions.

(** ** The session manager *)

Module Manager.
Import Py Server.

Lemma get_session_missing (mgr : AuthSessionManager) (sid : str) :
  _sessions mgr !! sid = None ->
  get_session mgr sid = Raise (KeyError "session not found").
Proof. intros H. unfold get_session. now rewrite H. Qed.

Lemma get_session_Raise_inv (mgr : AuthSessionManager) (sid : str) (e : exn) :
  get_session mgr sid = Raise e -> _sessions mgr !! sid = None.
Proof.
  unfold get_session. destruct (_sessions mgr !! sid); [discriminate | reflexivity].
Qed.

(** X1. [create_session] stores the identity and the challenge under the
    identifier it returns, which is the drawn one; both are read back by
    [get_username] and [get_auth_challenge]; a session already stored
    under that identifier is replaced, and the sessions under other
    identifiers are as before. *)
Theorem create_session_lookup (mgr : AuthSessionManager) (identity : str)
    (urandom16 : bytes) (uuid4 : str) :
  (create_session mgr identity urandom16 uuid4).2 = uuid4
  /\ get_username (create_session mgr identity urandom16 uuid4).1 uuid4 = Ok identity
  /\ get_auth_challenge (create_session mgr identity urandom16 uuid4).1 uuid4 = Ok urandom16
  /\ (forall sid : str, sid <> uuid4 ->
        get_session (create_session mgr identity urandom16 uuid4).1 sid
        = get_session mgr sid).
Proof.
  split; [reflexivity|].
  unfold get_username, get_auth_challenge, get_session, create_session.
  cbn [fst snd _sessions]. rewrite lookup_insert_eq. cbn [bind username auth_challenge].
  split; [reflexivity|]. split; [reflexivity|].
  intros sid Hne. now rewrite lookup_insert_ne by congruence.
Qed.

(** X2. After [delete_session] the three lookups on that identifier raise
    [KeyError]; the sessions under other identifiers are as before;
    deleting a second time changes nothing more. *)
Theorem delete_session_lookup (mgr : AuthSessionManager) (sid : str) :
  get_session (delete_session mgr sid) sid = Raise (KeyError "session not found")
  /\ get_username (delete_session mgr sid) sid = Raise (KeyError "session not found")
  /\ get_auth_challenge (delete_session mgr sid) sid = Raise (KeyError "session not found")
  /\ (forall sid' : str, sid' <> sid ->
        get_session (delete_session mgr sid) sid' = get_session mgr sid')
  /\ delete_session (delete_session mgr sid) sid = delete_session mgr sid.
Proof.
  unfold get_username, get_auth_challenge.
  rewrite (Sessions.get_session_deleted mgr sid). cbn [bind].
  repeat split.
  - intros sid' Hne. unfold get_session, delete_session. cbn [_sessions].
    now rewrite lookup_delete_ne by congruence.
  - unfold delete_session. cbn [_sessions]. now rewrite delete_delete_eq.
Qed.

(** X3. Deleting an identifier that has no session is no error and leaves
    the manager as it is; creating a session under such an identifier and
    deleting it gives the manager back. *)
Theorem delete_session_absent (mgr : AuthSessionManager) (sid : str) :
  get_session mgr sid = Raise (KeyError "session not found") ->
  delete_session mgr sid = mgr
  /\ (forall (identity : str) (urandom16 : bytes),
        delete_session (create_session mgr identity urandom16 sid).1 sid = mgr).
Proof.
  intros H. apply get_session_Raise_inv in H. destruct mgr as [m]. cbn [_sessions] in H.
  unfold delete_session, create_session. cbn [fst _sessions]. split.
  - now rewrite delete_id.
  - intros identity urandom16. now rewrite delete_insert_id.
Qed.

Lemma delete_session_absent_witness :
  delete_session (mkAuthSessionManager ∅) Demo.session_id = mkAuthSessionManager ∅
  /\ (forall (identity : str) (urandom16 : bytes),
        delete_session
          (create_session (mkAuthSessionManager ∅) identity urandom16 Demo.session_id).1
          Demo.session_id
        = mkAuthSessionManager ∅).
Proof. apply delete_session_absent. reflexivity. Defined.

End Manager.

(** ** The two codecs *)

Module Codec.
Import Py.

Lemma encode_ascii_Ok_inv (s : str) (bs : bytes) :
  encode_ascii s = Ok bs -> Spec.is_ascii s /\ map Byte.to_N bs = s.
Proof.
  revert bs. induction s as [|cp s IH]; intros bs; cbn [encode_ascii].
  - intros [= <-]. split; [constructor | reflexivity].
  - destruct (cp <? 128)%N eqn:Hlt; [|discriminate].
    destruct (Byte.of_N cp) as [b|] eqn:Hb; [|discriminate].
    destruct (encode_ascii s) as [bs'|]; cbn [bind]; [|discriminate].
    intros [= <-]. destruct (IH bs' eq_refl) as [Ha Hm]. split.
    + constructor; [now apply N.ltb_lt | exact Ha].
    + cbn [map]. now rewrite Hm, (Byte.to_of_N _ Hb).
Qed.

Lemma encode_ascii_Raise_inv (s : str) (e : exn) :
  encode_ascii s = Raise e -> e = UnicodeEncodeError "ascii".
Proof.
  induction s as [|cp s IH]; cbn [encode_ascii]; [discriminate|].
  destruct (cp <? 128)%N; [|now intros [= <-]].
  destruct (Byte.of_N cp); [|now intros [= <-]].
  destruct (encode_ascii s); cbn [bind]; [discriminate|].
  intros [= <-]. now apply IH.
Qed.

Lemma encode_ascii_not_ascii (s : str) :
  ~ Spec.is_ascii s -> encode_ascii s = Raise (UnicodeEncodeError "ascii").
Proof.
  intros Hn. destruct (encode_ascii s) as [bs|e] eqn:E.
  - exfalso. apply Hn. now apply encode_ascii_Ok_inv in E as [Ha _].
  - now rewrite (encode_ascii_Raise_inv s e E).
Qed.

Lemma encode_utf16le_Ok_inv (s : str) (bs : bytes) :
  encode_utf16le s = Ok bs -> Spec.no_surrogate s.
Proof.
  revert bs. induction s as [|cp s IH]; intros bs; cbn [encode_utf16le].
  - intros _. constructor.
  - destruct ((cp <? 0xD800) || ((0xE000 <=? cp) && (cp <? 0x10000)))%N eqn:E1.
    + destruct (encode_utf16le s) as [bs'|]; cbn [bind]; [|discriminate].
      intros _. constructor; [|now apply (IH bs')].
      apply orb_true_iff in E1 as [E1|E1].
      * left. now apply N.ltb_lt.
      * apply andb_true_iff in E1 as [Ea Eb]. apply N.leb_le in Ea. apply N.ltb_lt in Eb.
        right. lia.
    + destruct ((0x10000 <=? cp) && (cp <? 0x110000))%N eqn:E2; [|discriminate].
      destruct (encode_utf16le s) as [bs'|]; cbn [bind]; [|discriminate].
      intros _. constructor; [|now apply (IH bs')].
      apply andb_true_iff in E2 as [Ea Eb]. apply N.leb_le in Ea. apply N.ltb_lt in Eb.
      right. lia.
Qed.

Lemma encode_utf16le_Raise_inv (s : str) (e : exn) :
  encode_utf16le s = Raise e -> e = UnicodeEncodeError "utf-16-le".
Proof.
  induction s as [|cp s IH]; cbn [encode_utf16le]; [discriminate|].
  destruct ((cp <? 0xD800) || ((0xE000 <=? cp) && (cp <? 0x10000)))%N.
  - destruct (encode_utf16le s); cbn [bind]; [discriminate|].
    intros [= <-]. now apply IH.
  - destruct ((0x10000 <=? cp) && (cp <? 0x110000))%N; [|now intros [= <-]].
    destruct (encode_utf16le s); cbn [bind]; [discriminate|].
    intros [= <-]. now apply IH.
Qed.

Lemma encode_utf16le_rejects (s : str) :
  ~ Spec.no_surrogate s -> encode_utf16le s = Raise (UnicodeEncodeError "utf-16-le").
Proof.
  intros Hn. destruct (encode_utf16le s) as [bs|e] eqn:E.
  - exfalso. apply Hn. now apply encode_utf16le_Ok_inv in E.
  - now rewrite (encode_utf16le_Raise_inv s e E).
Qed.

End Codec.

(** ** More on the protocol engine *)

Module Exchange.
Import Py MSCHAPv2 PyFacts Engine Codec.

Section Primitives.

#[local] Set Default Proof Using "Type".

Variable md5 : bytes -> bytes.
Variable sha1 : bytes -> bytes.
Variable DES_encrypt_block : bytes -> bytes -> result bytes.

Lemma challenge_hash_Ok_inv (peer auth : bytes) (identity : str) (chall8 : bytes) :
  challenge_hash sha1 peer auth identity = Ok chall8 ->
  length peer = 16%nat /\ length auth = 16%nat /\ Spec.is_ascii identity.
Proof.
  intros H.
  destruct (decide (length peer = 16%nat)) as [Hp|Hp];
    [|rewrite challenge_hash_guard in H by (now left); discriminate].
  destruct (decide (length auth = 16%nat)) as [Ha|Ha];
    [|rewrite challenge_hash_guard in H by (now right); discriminate].
  rewrite challenge_hash_sized in H by assumption.
  destruct (encode_ascii identity) as [ub|] eqn:E; [|discriminate].
  now apply encode_ascii_Ok_inv in E as [Hi _].
Qed.

Lemma challenge_response_Ok_inv (challenge8 nt_hash resp : bytes) :
  challenge_response DES_encrypt_block challenge8 nt_hash = Ok resp ->
  length challenge8 = 8%nat /\ length nt_hash = 16%nat.
Proof.
  intros H.
  destruct (decide (length challenge8 = 8%nat)) as [Hc|Hc];
    [|rewrite challenge_response_guard_challenge in H by exact Hc; discriminate].
  destruct (decide (length nt_hash = 16%nat)) as [Hh|Hh];
    [|rewrite challenge_response_guard_digest in H by assumption; discriminate].
  now split.
Qed.

Lemma challenge_response_Ok_length (challenge8 nt_hash resp : bytes) :
  Spec.block_cipher DES_encrypt_block ->
  challenge_response DES_encrypt_block challenge8 nt_hash = Ok resp ->
  length resp = 24%nat.
Proof.
  intros Hdes H. destruct (challenge_response_Ok_inv _ _ _ H) as [Hc Hh].
  destruct (challenge_response_total DES_encrypt_block _ _ Hdes Hc Hh) as (r & Er & Lr).
  congruence.
Qed.

(** The response a client computes is the one the server recomputes from
    the digest of the same password. *)
Lemma generate_recomputed (auth peer : bytes) (identity password : str) (digest : bytes) :
  nt_password_hash md5 password = Ok digest ->
  generate_nt_response md5 sha1 DES_encrypt_block auth peer identity password
  = bind (challenge_hash sha1 peer auth identity) (fun chall8 =>
      challenge_response DES_encrypt_block chall8 digest).
Proof. intros H. unfold generate_nt_response. now rewrite H. Qed.

Lemma verify_of_expected (auth peer : bytes) (identity : str) (digest expected r : bytes) :
  bind (challenge_hash sha1 peer auth identity) (fun chall8 =>
    challenge_response DES_encrypt_block chall8 digest) = Ok expected ->
  length r = 24%nat ->
  verify_nt_response sha1 DES_encrypt_block auth peer identity digest r
  = Ok (bool_decide (expected = r)).
Proof.
  intros He Hr. rewrite verify_recomputes by exact Hr.
  destruct (challenge_hash sha1 peer auth identity) as [c|]; cbn [bind] in *; [|discriminate].
  now rewrite He.
Qed.

Lemma nt_password_hash_Ok (password : str) :
  Spec.no_surrogate password ->
  exists pw_bytes, encode_utf16le password = Ok pw_bytes
                   /\ nt_password_hash md5 password = Ok (md5 pw_bytes).
Proof.
  intros H. destruct (encode_utf16le_ok password H) as (pw_bytes & E).
  exists pw_bytes. split; [exact E|]. unfold nt_password_hash. now rewrite E.
Qed.

Lemma nt_password_hash_Raise (password : str) :
  ~ Spec.no_surrogate password ->
  nt_password_hash md5 password = Raise (UnicodeEncodeError "utf-16-le").
Proof.
  intros H. unfold nt_password_hash. now rewrite encode_utf16le_rejects.
Qed.

Lemma nt_password_hash_Ok_inv (password : str) (digest : bytes) :
  nt_password_hash md5 password = Ok digest -> Spec.no_surrogate password.
Proof.
  unfold nt_password_hash. destruct (encode_utf16le password) as [b|] eqn:E; [|discriminate].
  intros _. now apply encode_utf16le_Ok_inv in E.
Qed.

(** X4. [nt_password_hash] returns a digest exactly for the passwords
    without a surrogate code point, the digest being [md5] of the
    UTF-16LE bytes; for every other password it raises
    [UnicodeEncodeError]. *)
Theorem nt_password_hash_defined (password : str) :
  (Spec.no_surrogate password <->
     exists pw_bytes, encode_utf16le password = Ok pw_bytes
                      /\ nt_password_hash md5 password = Ok (md5 pw_bytes))
  /\ (~ Spec.no_surrogate password <->
        nt_password_hash md5 password = Raise (UnicodeEncodeError "utf-16-le")).
Proof.
  split; split.
  - apply nt_password_hash_Ok.
  - intros (pw_bytes & _ & H). now apply nt_password_hash_Ok_inv in H.
  - apply nt_password_hash_Raise.
  - intros H Hn. destruct (nt_password_hash_Ok password Hn) as (b & _ & E). congruence.
Qed.

(** X5. On two 16-byte challenges, [challenge_hash] of an ASCII identity is
    the first 8 bytes of [sha1] over the peer challenge, then the
    authenticator challenge, then one byte for each character of the
    identity; of any other identity it raises [UnicodeEncodeError]. *)
Theorem challenge_hash_value (peer auth : bytes) (identity : str) :
  length peer = 16%nat -> length auth = 16%nat ->
  (Spec.is_ascii identity ->
     exists user_bytes,
       map Byte.to_N user_bytes = identity
       /\ challenge_hash sha1 peer auth identity
          = Ok (take 8 (sha1 (peer ++ auth ++ user_bytes))))
  /\ (~ Spec.is_ascii identity ->
        challenge_hash sha1 peer auth identity = Raise (UnicodeEncodeError "ascii")).
Proof.
  intros Hp Ha. rewrite challenge_hash_sized by assumption. split.
  - intros Hi. destruct (encode_ascii_ok identity Hi) as (ub & E).
    exists ub. rewrite E. split; [|reflexivity]. now apply encode_ascii_Ok_inv in E as [_ Hm].
  - intros Hn. now rewrite encode_ascii_not_ascii.
Qed.

(** X6. With primitives of the expected sizes, [generate_nt_response]
    returns a response, of 24 bytes, exactly when the password has no
    surrogate code point, both challenges have 16 bytes and the identity
    is ASCII; in every other case it raises. *)
Theorem generate_defined (auth peer : bytes) (identity password : str) :
  Spec.digest16 md5 -> Spec.digest_at_least8 sha1 -> Spec.block_cipher DES_encrypt_block ->
  ((exists resp,
      generate_nt_response md5 sha1 DES_encrypt_block auth peer identity password = Ok resp)
   <-> Spec.no_surrogate password /\ length peer = 16%nat /\ length auth = 16%nat
       /\ Spec.is_ascii identity)
  /\ (forall resp,
        generate_nt_response md5 sha1 DES_encrypt_block auth peer identity password = Ok resp ->
        length resp = 24%nat).
Proof.
  intros Hmd5 Hsha Hdes. split; [split|].
  - intros (resp & H). unfold generate_nt_response in H.
    destruct (nt_password_hash md5 password) as [d|] eqn:Ed; cbn [bind] in H; [|discriminate].
    destruct (challenge_hash sha1 peer auth identity) as [c|] eqn:Ec; cbn [bind] in H;
      [|discriminate].
    apply nt_password_hash_Ok_inv in Ed. apply challenge_hash_Ok_inv in Ec. tauto.
  - intros (Hpw & Hp & Ha & Hi).
    destruct (nt_password_hash_Ok password Hpw) as (pw_bytes & _ & Ed).
    destruct (encode_ascii_ok identity Hi) as (ub & Eu).
    assert (Ec : challenge_hash sha1 peer auth identity
                 = Ok (take 8 (sha1 (peer ++ auth ++ ub)))).
    { rewrite challenge_hash_sized by assumption. now rewrite Eu. }
    pose proof (challenge_hash_length sha1 _ _ _ _ Hsha Ec) as Lc.
    destruct (challenge_response_total DES_encrypt_block _ (md5 pw_bytes) Hdes Lc (Hmd5 _))
      as (resp & Er & _).
    exists resp. rewrite (generate_recomputed _ _ _ _ _ Ed), Ec. exact Er.
  - intros resp H. unfold generate_nt_response in H.
    destruct (nt_password_hash md5 password) as [d|]; cbn [bind] in H; [|discriminate].
    destruct (challenge_hash sha1 peer auth identity) as [c|]; cbn [bind] in H;
      [|discriminate].
    now apply challenge_response_Ok_length in H.
Qed.

(** X7. With an 8-byte block cipher: when a password has the digest [d]
    and [generate_nt_response] returns [resp] for it, [verify_nt_response]
    against [d] never raises and returns true on [resp] and false on
    every other buffer. *)
Theorem verify_accepts_only_generated
    (auth peer : bytes) (identity password : str) (digest resp r : bytes) :
  Spec.block_cipher DES_encrypt_block ->
  nt_password_hash md5 password = Ok digest ->
  generate_nt_response md5 sha1 DES_encrypt_block auth peer identity password = Ok resp ->
  verify_nt_response sha1 DES_encrypt_block auth peer identity digest r
  = Ok (bool_decide (r = resp)).
Proof.
  intros Hdes Hd Hg. rewrite (generate_recomputed _ _ _ _ _ Hd) in Hg.
  assert (Lr : length resp = 24%nat).
  { destruct (challenge_hash sha1 peer auth identity) as [c|]; cbn [bind] in Hg;
      [|discriminate]. now apply challenge_response_Ok_length in Hg. }
  destruct (decide (length r = 24%nat)) as [Hr|Hr].
  - rewrite (verify_of_expected _ _ _ _ _ _ Hg Hr). f_equal.
    apply bool_decide_ext. split; congruence.
  - rewrite verify_wrong_length by exact Hr. f_equal. symmetry.
    apply bool_decide_eq_false. congruence.
Qed.

(** X8. For given challenges, identity and stored digest,
    [verify_nt_response] accepts at most one response. *)
Theorem verify_accepts_at_most_one
    (auth peer : bytes) (identity : str) (digest r1 r2 : bytes) :
  verify_nt_response sha1 DES_encrypt_block auth peer identity digest r1 = Ok true ->
  verify_nt_response sha1 DES_encrypt_block auth peer identity digest r2 = Ok true ->
  r1 = r2.
Proof.
  intros H1 H2. apply verify_true_inv in H1 as [_ E1]. apply verify_true_inv in H2 as [_ E2].
  congruence.
Qed.

(** X9. With primitives of the expected sizes and a 24-byte response,
    [verify_nt_response] returns a boolean exactly when both challenges
    have 16 bytes, the identity is ASCII and the stored digest has 16
    bytes; in every other case it raises instead of returning false. *)
Theorem verify_returns_iff (auth peer : bytes) (identity : str) (digest r : bytes) :
  Spec.digest_at_least8 sha1 -> Spec.block_cipher DES_encrypt_block ->
  length r = 24%nat ->
  ((exists b, verify_nt_response sha1 DES_encrypt_block auth peer identity digest r = Ok b)
   <-> length peer = 16%nat /\ length auth = 16%nat /\ Spec.is_ascii identity
       /\ length digest = 16%nat).
Proof.
  intros Hsha Hdes Hr. rewrite verify_recomputes by exact Hr. split.
  - intros (b & H).
    destruct (challenge_hash sha1 peer auth identity) as [c|] eqn:Ec; cbn [bind] in H;
      [|discriminate].
    destruct (challenge_response DES_encrypt_block c digest) as [e|] eqn:Ee; cbn [bind] in H;
      [|discriminate].
    apply challenge_hash_Ok_inv in Ec as (Hp & Ha & Hi).
    apply challenge_response_Ok_inv in Ee as (_ & Hd). auto.
  - intros (Hp & Ha & Hi & Hd).
    destruct (encode_ascii_ok identity Hi) as (ub & Eu).
    assert (Ec : challenge_hash sha1 peer auth identity
                 = Ok (take 8 (sha1 (peer ++ auth ++ ub)))).
    { rewrite challenge_hash_sized by assumption. now rewrite Eu. }
    pose proof (challenge_hash_length sha1 _ _ _ _ Hsha Ec) as Lc.
    destruct (challenge_response_total DES_encrypt_block _ digest Hdes Lc Hd) as (e & Ee & _).
    rewrite Ec. cbn [bind]. rewrite Ee. cbn [bind]. now eexists.
Qed.

End Primitives.

End Exchange.

(** ** More on the key schedule and on the response blocks *)

Module KeySchedule.
Import Py MSCHAPv2 PyFacts KeyExpansion Engine.

Lemma land_low7_mod (x : Z) : Z.land x 0x7F = x mod 128.
Proof. change 0x7F with (Z.ones 7). now rewrite Z.land_ones by lia. Qed.

(** X10. [_apply_des_parity_to_7bits] accepts every integer, negative or
    large: only the 7 low bits of the argument count, the result is a byte
    value with an odd number of set bits, and its 7 high bits are those 7
    low bits. *)
Theorem parity_of_any_integer (b7 : Z) :
  _apply_des_parity_to_7bits b7 = _apply_des_parity_to_7bits (b7 mod 128)
  /\ 0 <= _apply_des_parity_to_7bits b7 < 256
  /\ Nat.odd (Spec.set_bits 8 (_apply_des_parity_to_7bits b7)) = true
  /\ Z.shiftr (_apply_des_parity_to_7bits b7) 1 = b7 mod 128.
Proof.
  assert (E : _apply_des_parity_to_7bits b7 = _apply_des_parity_to_7bits (b7 mod 128)).
  { unfold _apply_des_parity_to_7bits. rewrite !land_low7_mod.
    now rewrite Z.mod_mod by lia. }
  split; [exact E|]. rewrite E.
  assert (Hr : 0 <= b7 mod 128 < 128) by (apply Z.mod_pos_bound; lia).
  destruct (parity_facts _ Hr) as (_ & H1 & H2 & H3). auto.
Qed.

Lemma groups_of_bytes (s0 s1 s2 s3 s4 s5 s6 : Z) :
  0 <= s0 < 256 -> 0 <= s1 < 256 -> 0 <= s2 < 256 -> 0 <= s3 < 256 ->
  0 <= s4 < 256 -> 0 <= s5 < 256 -> 0 <= s6 < 256 ->
  let k := ((((((0 * 256 + s0) * 256 + s1) * 256 + s2) * 256 + s3) * 256 + s4) * 256
            + s5) * 256 + s6 in
  (k / 2 ^ 49) mod 2 ^ 7 = s0 / 2
  /\ (k / 2 ^ 42) mod 2 ^ 7 = (s0 mod 2) * 64 + s1 / 4
  /\ (k / 2 ^ 35) mod 2 ^ 7 = (s1 mod 4) * 32 + s2 / 8
  /\ (k / 2 ^ 28) mod 2 ^ 7 = (s2 mod 8) * 16 + s3 / 16
  /\ (k / 2 ^ 21) mod 2 ^ 7 = (s3 mod 16) * 8 + s4 / 32
  /\ (k / 2 ^ 14) mod 2 ^ 7 = (s4 mod 32) * 4 + s5 / 64
  /\ (k / 2 ^ 7) mod 2 ^ 7 = (s5 mod 64) * 2 + s6 / 128
  /\ (k / 2 ^ 0) mod 2 ^ 7 = s6 mod 128.
Proof.
  intros H0 H1 H2 H3 H4 H5 H6 k. subst k.
  repeat split; Z.div_mod_to_equations; lia.
Qed.

(** X11. Byte by byte: the 7 high bits of key byte [i] are the [i] low
    bits of input byte [i-1] followed by the [7-i] high bits of input byte
    [i], so each key byte is made from at most two neighbouring input
    bytes. *)
Theorem key_bytes_from_neighbours (s0 s1 s2 s3 s4 s5 s6 : byte) :
  exists key8,
    make_des_key_from_7_bytes [s0; s1; s2; s3; s4; s5; s6] = Ok key8
    /\ map Spec.high7 key8
       = [ byte_val s0 / 2;
           (byte_val s0 mod 2) * 64 + byte_val s1 / 4;
           (byte_val s1 mod 4) * 32 + byte_val s2 / 8;
           (byte_val s2 mod 8) * 16 + byte_val s3 / 16;
           (byte_val s3 mod 16) * 8 + byte_val s4 / 32;
           (byte_val s4 mod 32) * 4 + byte_val s5 / 64;
           (byte_val s5 mod 64) * 2 + byte_val s6 / 128;
           byte_val s6 mod 128 ].
Proof.
  eexists. split; [now apply make_des_key_explicit|].
  cbn [seq map]. rewrite !high7_parity_byte by lia.
  unfold Spec.group, int_from_bytes_big. cbn [fold_left].
  change (7 * (7 - Z.of_nat 0)) with 49. change (7 * (7 - Z.of_nat 1)) with 42.
  change (7 * (7 - Z.of_nat 2)) with 35. change (7 * (7 - Z.of_nat 3)) with 28.
  change (7 * (7 - Z.of_nat 4)) with 21. change (7 * (7 - Z.of_nat 5)) with 14.
  change (7 * (7 - Z.of_nat 6)) with 7. change (7 * (7 - Z.of_nat 7)) with 0.
  destruct (groups_of_bytes _ _ _ _ _ _ _ (byte_val_range s0) (byte_val_range s1)
              (byte_val_range s2) (byte_val_range s3) (byte_val_range s4)
              (byte_val_range s5) (byte_val_range s6))
    as (E0 & E1 & E2 & E3 & E4 & E5 & E6 & E7).
  now rewrite E0, E1, E2, E3, E4, E5, E6, E7.
Qed.

Section Cipher.

#[local] Set Default Proof Using "Type".

Variable DES_encrypt_block : bytes -> bytes -> result bytes.

(** X12. With an 8-byte block cipher, the last 8 bytes of a response are
    the challenge encrypted under the key expanded from the last two
    digest bytes followed by five zero bytes: they do not depend on the
    first 14 bytes of the digest. *)
Theorem last_block_from_last_two_bytes (challenge8 nt_hash resp : bytes) :
  Spec.block_cipher DES_encrypt_block ->
  challenge_response DES_encrypt_block challenge8 nt_hash = Ok resp ->
  exists key8 block,
    make_des_key_from_7_bytes (drop 14 nt_hash ++ replicate 5 "000"%byte) = Ok key8
    /\ DES_encrypt_block challenge8 key8 = Ok block
    /\ drop 16 resp = block.
Proof.
  intros Hdes H.
  destruct (Exchange.challenge_response_Ok_inv _ _ _ _ H) as [Hc Hh].
  rewrite challenge_response_reference in H by assumption.
  unfold Spec.response_transform in H.
  destruct (Hdes challenge8 _ Hc (reference_key_length
              (take 7 (nt_hash ++ ["000"; "000"; "000"; "000"; "000"]%byte))))
    as (out1 & E1 & L1).
  destruct (Hdes challenge8 _ Hc (reference_key_length
              (take 7 (drop 7 (nt_hash ++ ["000"; "000"; "000"; "000"; "000"]%byte)))))
    as (out2 & E2 & L2).
  rewrite E1, E2 in H. cbn [bind] in H.
  assert (E : take 7 (drop 14 (nt_hash ++ ["000"; "000"; "000"; "000"; "000"]%byte))
              = drop 14 nt_hash ++ replicate 5 "000"%byte).
  { rewrite drop_app_le by lia. apply take_ge.
    rewrite length_app, length_drop, Hh. cbn. lia. }
  rewrite E in H.
  destruct (DES_encrypt_block challenge8 _) as [out3|] eqn:E3; cbn [bind] in H;
    [|discriminate].
  injection H as <-.
  exists (map Spec.to_byte (Spec.key_expansion (drop 14 nt_hash ++ replicate 5 "000"%byte))),
    out3.
  split.
  - apply make_des_key_reference. rewrite length_app, length_drop, Hh. reflexivity.
  - split; [exact E3|]. rewrite app_assoc, drop_app_length'; [reflexivity|].
    rewrite length_app. lia.
Qed.

End Cipher.

Lemma last_block_from_last_two_bytes_witness :
  exists key8 block,
    make_des_key_from_7_bytes (drop 14 Demo.digest ++ replicate 5 "000"%byte) = Ok key8
    /\ Demo.DES_encrypt_block (take 8 Demo.peer_challenge) key8 = Ok block
    /\ drop 16 Demo.response = block.
Proof.
  apply (last_block_from_last_two_bytes Demo.DES_encrypt_block (take 8 Demo.peer_challenge)
           Demo.digest).
  - apply DemoFacts.DES_block_cipher.
  - vm_compute. reflexivity.
Defined.

End KeySchedule.

(** ** The [/auth/response] endpoint *)

Module Response.
Import Py Server.

Section Endpoint.

#[local] Set Default Proof Using "Type".

Variable sha1 : bytes -> bytes.
Variable DES_encrypt_block : bytes -> bytes -> result bytes.
Variable b64decode : str -> result bytes.

(** What the endpoint does once the session is found and the identity
    matches it. *)
Lemma auth_response_live (req : AuthResponseRequest) (st : ServerState)
    (sess : AuthSession) :
  _sessions (session_manager st) !! req_session_id req = Some sess ->
  username sess = req_username req ->
  auth_response sha1 DES_encrypt_block b64decode req st
  = match b64decode (req_peer_challenge req) with
    | Raise _ => (Raise (HTTPException 400 "Bad base64"), st)
    | Ok peer =>
        match b64decode (req_nt_response req) with
        | Raise _ => (Raise (HTTPException 400 "Bad base64"), st)
        | Ok r =>
            if negb (length peer =? 16)%nat || negb (length r =? 24)%nat then
              (Raise (HTTPException 400 "Wrong lengths"), st)
            else
              match db st !! req_username req with
              | None => (Raise (HTTPException 404 "User not found"), st)
              | Some user =>
                  match MSCHAPv2.verify_nt_response sha1 DES_encrypt_block
                          (auth_challenge sess) peer (req_username req) (nt_hash user) r with
                  | Raise e => (Raise e, st)
                  | Ok ok => (Ok (mkAuthResult ok), Api.consumed req st)
                  end
              end
        end
    end.
Proof.
  intros H Hu.
  unfold auth_response, and_then, on_KeyError, on_Exception, read, lift, ret, raise,
    update_sessions, get_username, get_auth_challenge, get_session, Api.consumed.
  rewrite H. cbn [bind].
  rewrite bool_decide_eq_false_2 by (intros Hne; now apply Hne).
  destruct (b64decode (req_peer_challenge req)) as [peer|]; [|reflexivity].
  destruct (b64decode (req_nt_response req)) as [r|]; [|reflexivity].
  destruct (negb (length peer =? 16)%nat || negb (length r =? 24)%nat); [reflexivity|].
  destruct (db st !! req_username req) as [user|]; [|reflexivity].
  destruct (MSCHAPv2.verify_nt_response _ _ _ _ _ _ _); reflexivity.
Qed.

(** The three ways through the endpoint, by the session lookup and the
    identity check. *)
Lemma auth_response_cases (req : AuthResponseRequest) (st : ServerState) :
  (_sessions (session_manager st) !! req_session_id req = None
   /\ auth_response sha1 DES_encrypt_block b64decode req st
      = (Raise (HTTPException 400 "Invalid session_id"), st))
  \/ (exists sess,
        _sessions (session_manager st) !! req_session_id req = Some sess
        /\ username sess <> req_username req
        /\ auth_response sha1 DES_encrypt_block b64decode req st
           = (Raise (HTTPException 400 "Username mismatch"), st))
  \/ (exists sess,
        _sessions (session_manager st) !! req_session_id req = Some sess
        /\ username sess = req_username req).
Proof.
  destruct (_sessions (session_manager st) !! req_session_id req) as [sess|] eqn:E.
  - right. destruct (decide (username sess = req_username req)) as [Hu|Hu].
    + right. now exists sess.
    + left. exists sess. split; [reflexivity|]. split; [exact Hu|].
      now apply Sessions.auth_response_mismatch with (sess := sess).
  - left. split; [reflexivity|]. now apply Sessions.auth_response_no_session.
Qed.

(** An answer, whatever its verdict, comes from a verification that ran on
    the decoded fields against the stored digest of the presented
    identity. *)
Lemma auth_response_Ok_inv (req : AuthResponseRequest) (st : ServerState)
    (res : AuthResult) :
  (auth_response sha1 DES_encrypt_block b64decode req st).1 = Ok res ->
  exists sess user peer r,
    _sessions (session_manager st) !! req_session_id req = Some sess
    /\ username sess = req_username req
    /\ b64decode (req_peer_challenge req) = Ok peer
    /\ b64decode (req_nt_response req) = Ok r
    /\ length peer = 16%nat /\ length r = 24%nat
    /\ db st !! req_username req = Some user
    /\ MSCHAPv2.verify_nt_response sha1 DES_encrypt_block
         (auth_challenge sess) peer (req_username req) (nt_hash user) r = Ok (success res)
    /\ (auth_response sha1 DES_encrypt_block b64decode req st).2 = Api.consumed req st.
Proof.
  destruct (auth_response_cases req st) as [[_ E]|[(sess & _ & _ & E)|(sess & Hs & Hu)]];
    try (rewrite E; discriminate).
  rewrite (auth_response_live req st sess Hs Hu).
  destruct (b64decode (req_peer_challenge req)) as [peer|]; [|discriminate].
  destruct (b64decode (req_nt_response req)) as [r|]; [|discriminate].
  destruct (length peer =? 16)%nat eqn:Lp; cbn [negb orb]; [|discriminate].
  destruct (length r =? 24)%nat eqn:Lr; cbn [negb]; [|discriminate].
  destruct (db st !! req_username req) as [user|]; [|discriminate].
  destruct (MSCHAPv2.verify_nt_response _ _ _ _ _ _ _) as [ok|] eqn:Ev; [|discriminate].
  cbn [fst snd]. intros [= <-]. apply Nat.eqb_eq in Lp, Lr.
  exists sess, user, peer, r. cbn [success]. repeat split; assumption || reflexivity.
Qed.



(** X14. The endpoint answers success only for a live session of the
    presented identity, with a peer challenge of 16 bytes and a response
    that is exactly the one recomputed from the session's challenge, the
    peer challenge, the identity and the digest stored for that identity. *)
Theorem success_is_sound (req : AuthResponseRequest) (st : ServerState) :
  (auth_response sha1 DES_encrypt_block b64decode req st).1 = Ok (mkAuthResult true) ->
  exists sess user peer r,
    get_session (session_manager st) (req_session_id req) = Ok sess
    /\ username sess = req_username req
    /\ db st !! req_username req = Some user
    /\ b64decode (req_peer_challenge req) = Ok peer /\ length peer = 16%nat
    /\ b64decode (req_nt_response req) = Ok r
    /\ bind (MSCHAPv2.challenge_hash sha1 peer (auth_challenge sess) (req_username req))
         (fun chall8 => MSCHAPv2.challenge_response DES_encrypt_block chall8 (nt_hash user))
       = Ok r.
Proof.
  intros H.
  destruct (auth_response_Ok_inv req st _ H)
    as (sess & user & peer & r & Hs & Hu & Hp & Hr & Lp & Lr & Hdb & Hv & _).
  cbn [success] in Hv. apply Engine.verify_true_inv in Hv as [_ He].
  exists sess, user, peer, r.
  repeat split; try assumption. now apply Sessions.get_session_live.
Qed.

(** X15. One answer for each challenge: when the endpoint has answered on
    a session, with either verdict, a call that names that session and is
    made on the state the answer left is rejected with
    "Invalid session_id", and leaves that state as it is. *)
Theorem answered_once (req req' : AuthResponseRequest) (st : ServerState) (res : AuthResult) :
  (auth_response sha1 DES_encrypt_block b64decode req st).1 = Ok res ->
  req_session_id req' = req_session_id req ->
  auth_response sha1 DES_encrypt_block b64decode req'
    (auth_response sha1 DES_encrypt_block b64decode req st).2
  = (Raise (HTTPException 400 "Invalid session_id"),
     (auth_response sha1 DES_encrypt_block b64decode req st).2).
Proof.
  intros H Hid.
  destruct (auth_response_Ok_inv req st res H)
    as (? & ? & ? & ? & _ & _ & _ & _ & _ & _ & _ & _ & ->).
  apply Sessions.auth_response_no_session. rewrite Hid.
  unfold Api.consumed. cbn [session_manager delete_session _sessions].
  apply lookup_delete_eq.
Qed.

(** X16. A request that names no live session is rejected with
    "Invalid session_id", whatever its other fields hold, and the state is
    unchanged. *)
Theorem unknown_session_rejected (req : AuthResponseRequest) (st : ServerState) :
  get_session (session_manager st) (req_session_id req)
  = Raise (KeyError "session not found") ->
  auth_response sha1 DES_encrypt_block b64decode req st
  = (Raise (HTTPException 400 "Invalid session_id"), st).
Proof.
  intros H. apply Sessions.auth_response_no_session.
  now apply Manager.get_session_Raise_inv in H.
Qed.

(** X17. On a live session of the presented identity: a field that
    [b64decode] refuses gives "Bad base64", whatever exception the decoder
    raised; decoded fields of the wrong sizes give "Wrong lengths"; an
    identity with no row in the table gives 404 "User not found". In the
    three cases the state is unchanged, so the session stays open. *)
Theorem payload_rejections (req : AuthResponseRequest) (st : ServerState)
    (sess : AuthSession) :
  get_session (session_manager st) (req_session_id req) = Ok sess ->
  username sess = req_username req ->
  ((exists e, b64decode (req_peer_challenge req) = Raise e)
   \/ (exists e, b64decode (req_nt_response req) = Raise e) ->
   auth_response sha1 DES_encrypt_block b64decode req st
   = (Raise (HTTPException 400 "Bad base64"), st))
  /\ (forall peer r,
        b64decode (req_peer_challenge req) = Ok peer ->
        b64decode (req_nt_response req) = Ok r ->
        length peer <> 16%nat \/ length r <> 24%nat ->
        auth_response sha1 DES_encrypt_block b64decode req st
        = (Raise (HTTPException 400 "Wrong lengths"), st))
  /\ (forall peer r,
        b64decode (req_peer_challenge req) = Ok peer ->
        b64decode (req_nt_response req) = Ok r ->
        length peer = 16%nat -> length r = 24%nat ->
        db st !! req_username req = None ->
        auth_response sha1 DES_encrypt_block b64decode req st
        = (Raise (HTTPException 404 "User not found"), st)).
Proof.
  intros Hs Hu.
  assert (Hl : _sessions (session_manager st) !! req_session_id req = Some sess).
  { unfold get_session in Hs.
    destruct (_sessions (session_manager st) !! req_session_id req); congruence. }
  rewrite (auth_response_live req st sess Hl Hu). split; [|split].
  - intros [(e & ->)|(e & E)]; [reflexivity|].
    rewrite E. now destruct (b64decode (req_peer_challenge req)).
  - intros peer r -> -> Hlen.
    destruct (length peer =? 16)%nat eqn:Lp; cbn [negb orb]; [|reflexivity].
    destruct (length r =? 24)%nat eqn:Lr; cbn [negb]; [|reflexivity].
    apply Nat.eqb_eq in Lp, Lr. tauto.
  - intros peer r -> -> Lp Lr ->. now rewrite Lp, Lr.
Qed.

(** X18. An identity that is not ASCII can hold a session and a row in the
    table, but its well-formed requests are never answered: the call
    raises [UnicodeEncodeError], which is no HTTP rejection, and the
    session stays open. *)
Theorem non_ascii_identity_raises (req : AuthResponseRequest) (st : ServerState)
    (sess : AuthSession) (user : User) (peer r : bytes) :
  get_session (session_manager st) (req_session_id req) = Ok sess ->
  username sess = req_username req ->
  length (auth_challenge sess) = 16%nat ->
  b64decode (req_peer_challenge req) = Ok peer -> length peer = 16%nat ->
  b64decode (req_nt_response req) = Ok r -> length r = 24%nat ->
  db st !! req_username req = Some user ->
  ~ Spec.is_ascii (req_username req) ->
  auth_response sha1 DES_encrypt_block b64decode req st
  = (Raise (UnicodeEncodeError "ascii"), st).
Proof.
  intros Hs Hu La Hp Lp Hr Lr Hdb Hn.
  assert (Hl : _sessions (session_manager st) !! req_session_id req = Some sess).
  { unfold get_session in Hs.
    destruct (_sessions (session_manager st) !! req_session_id req); congruence. }
  rewrite (auth_response_live req st sess Hl Hu), Hp, Hr, Lp, Lr, Hdb.
  cbn [Nat.eqb negb orb].
  rewrite Engine.verify_recomputes by exact Lr.
  rewrite Engine.challenge_hash_sized by assumption.
  now rewrite Codec.encode_ascii_not_ascii.
Qed.

Variable md5 : bytes -> bytes.

(** The accepting path of the endpoint. *)
Lemma auth_response_accepts (req : AuthResponseRequest) (st : ServerState)
    (sess : AuthSession) (user : User) (password : str) (peer r : bytes) :
  Spec.block_cipher DES_encrypt_block ->
  get_session (session_manager st) (req_session_id req) = Ok sess ->
  username sess = req_username req ->
  db st !! req_username req = Some user ->
  MSCHAPv2.nt_password_hash md5 password = Ok (nt_hash user) ->
  b64decode (req_peer_challenge req) = Ok peer ->
  b64decode (req_nt_response req) = Ok r ->
  MSCHAPv2.generate_nt_response md5 sha1 DES_encrypt_block
    (auth_challenge sess) peer (req_username req) password = Ok r ->
  auth_response sha1 DES_encrypt_block b64decode req st
  = (Ok (mkAuthResult true), Api.consumed req st).
Proof.
  intros Hdes Hs Hu Hdb Hd Hp Hr Hg.
  assert (Hl : _sessions (session_manager st) !! req_session_id req = Some sess).
  { unfold get_session in Hs.
    destruct (_sessions (session_manager st) !! req_session_id req); congruence. }
  rewrite (Exchange.generate_recomputed md5 sha1 DES_encrypt_block _ _ _ _ _ Hd) in Hg.
  assert (Lp : length peer = 16%nat).
  { destruct (MSCHAPv2.challenge_hash sha1 peer (auth_challenge sess) (req_username req))
      as [c|] eqn:Ec; [|discriminate].
    now apply Exchange.challenge_hash_Ok_inv in Ec as (? & ? & ?). }
  assert (Lr : length r = 24%nat).
  { destruct (MSCHAPv2.challenge_hash sha1 peer (auth_challenge sess) (req_username req))
      as [c|]; cbn [bind] in Hg; [|discriminate].
    now apply Exchange.challenge_response_Ok_length in Hg. }
  rewrite (auth_response_live req st sess Hl Hu), Hp, Hr, Lp, Lr, Hdb.
  cbn [Nat.eqb negb orb].
  rewrite (Exchange.verify_of_expected sha1 DES_encrypt_block _ _ _ _ _ _ Hg Lr).
  now rewrite bool_decide_eq_true_2.
Qed.



End Endpoint.

End Response.

(** ** The users table, [/auth/register] and [/auth/challenge] *)

Module Accounts.
Import Py Server.

Section Endpoints.

#[local] Set Default Proof Using "Type".

Variable md5 : bytes -> bytes.
Variable b64encode : bytes -> bytes.

Lemma register_existing (req : Api.RegisterRequest)
    (commit_error refresh_error : option exn) (st : ServerState) (user : User) :
  db st !! Api.reg_username req = Some user ->
  Api.register md5 req commit_error refresh_error st
  = (Raise (HTTPException 400 "User already exists"), st).
Proof.
  intros H. unfold Api.register, and_then, read, raise, Database.get_user_by_username.
  now rewrite H.
Qed.

Lemma register_fresh (req : Api.RegisterRequest) (st : ServerState) (digest : bytes) :
  db st !! Api.reg_username req = None ->
  MSCHAPv2.nt_password_hash md5 (Api.reg_password req) = Ok digest ->
  Api.register md5 req None None st
  = (Ok (Api.mkRegisterResult true),
     mkServerState (session_manager st)
       (<[Api.reg_username req := mkUser (Api.reg_username req) digest]> (db st))).
Proof.
  intros H Hd.
  unfold Api.register, and_then, on_Exception, read, lift, ret, raise,
    Api.db_create_user, Database.get_user_by_username, Database.create_user.
  now rewrite H, Hd.
Qed.

(** The commit raises: nothing is stored. *)
Lemma register_commit_error (req : Api.RegisterRequest) (st : ServerState)
    (digest : bytes) (e : exn) (refresh_error : option exn) :
  db st !! Api.reg_username req = None ->
  MSCHAPv2.nt_password_hash md5 (Api.reg_password req) = Ok digest ->
  Api.register md5 req (Some e) refresh_error st
  = (Raise (HTTPException 500 "DB error"), st).
Proof.
  intros H Hd.
  unfold Api.register, and_then, on_Exception, read, lift, ret, raise,
    Api.db_create_user, Database.get_user_by_username, Database.create_user.
  rewrite H, Hd. now destruct st.
Qed.

(** The refresh raises after the commit: the row is stored all the same. *)
Lemma register_refresh_error (req : Api.RegisterRequest) (st : ServerState)
    (digest : bytes) (e : exn) :
  db st !! Api.reg_username req = None ->
  MSCHAPv2.nt_password_hash md5 (Api.reg_password req) = Ok digest ->
  Api.register md5 req None (Some e) st
  = (Raise (HTTPException 500 "DB error"),
     mkServerState (session_manager st)
       (<[Api.reg_username req := mkUser (Api.reg_username req) digest]> (db st))).
Proof.
  intros H Hd.
  unfold Api.register, and_then, on_Exception, read, lift, ret, raise,
    Api.db_create_user, Database.get_user_by_username, Database.create_user.
  now rewrite H, Hd.
Qed.

Lemma register_bad_password (req : Api.RegisterRequest)
    (commit_error refresh_error : option exn) (st : ServerState) :
  db st !! Api.reg_username req = None ->
  ~ Spec.no_surrogate (Api.reg_password req) ->
  Api.register md5 req commit_error refresh_error st
  = (Raise (UnicodeEncodeError "utf-16-le"), st).
Proof.
  intros H Hn.
  unfold Api.register, and_then, read, lift, Database.get_user_by_username.
  now rewrite H, Exchange.nt_password_hash_Raise.
Qed.

(** X22. Registering a username that has a row is rejected with 400
    "User already exists", whatever the password and whatever the database
    would have done; the state is unchanged, so the stored digest stays. *)
Theorem register_existing_user (req : Api.RegisterRequest)
    (commit_error refresh_error : option exn) (st : ServerState) (user : User) :
  Database.get_user_by_username (db st) (Api.reg_username req) = Some user ->
  Api.register md5 req commit_error refresh_error st
  = (Raise (HTTPException 400 "User already exists"), st).
Proof.
  intros H. unfold Api.register, and_then, read, raise.
  now rewrite H.
Qed.

(** X23. Registering a new username with a password without surrogate code
    points, the database accepting the row, answers success; afterwards
    the table holds for that username the [md5] digest of the UTF-16LE
    bytes of the password; the other rows and the sessions are as before. *)
Theorem register_stores_digest (req : Api.RegisterRequest) (st : ServerState) :
  Database.get_user_by_username (db st) (Api.reg_username req) = None ->
  Spec.no_surrogate (Api.reg_password req) ->
  exists pw_bytes,
    encode_utf16le (Api.reg_password req) = Ok pw_bytes
    /\ (Api.register md5 req None None st).1 = Ok (Api.mkRegisterResult true)
    /\ Database.get_user_by_username (db (Api.register md5 req None None st).2)
         (Api.reg_username req)
       = Some (mkUser (Api.reg_username req) (md5 pw_bytes))
    /\ (forall other : str, other <> Api.reg_username req ->
          Database.get_user_by_username (db (Api.register md5 req None None st).2) other
          = Database.get_user_by_username (db st) other)
    /\ session_manager (Api.register md5 req None None st).2 = session_manager st.
Proof.
  intros H Hpw. destruct (Exchange.nt_password_hash_Ok md5 _ Hpw) as (pw_bytes & E & Hd).
  exists pw_bytes. split; [exact E|].
  rewrite (register_fresh req st _ H Hd). cbn [fst snd db session_manager].
  unfold Database.get_user_by_username. rewrite lookup_insert_eq.
  repeat split. intros other Hne. now rewrite lookup_insert_ne by congruence.
Qed.

(** X24. The failures of a registration of a new username. A password
    holding a surrogate code point makes the call raise
    [UnicodeEncodeError], which is no HTTP rejection, whatever the
    database would do, and nothing is stored. An exception raised by the
    commit is turned into 500 "DB error", and nothing is stored. An
    exception raised by the refresh that follows the commit is turned into
    500 "DB error" too, but the row, with the digest of the password, is
    stored: the answer is an error and the user exists. *)
Theorem register_failures (req : Api.RegisterRequest) (st : ServerState) :
  Database.get_user_by_username (db st) (Api.reg_username req) = None ->
  (~ Spec.no_surrogate (Api.reg_password req) ->
     forall commit_error refresh_error,
       Api.register md5 req commit_error refresh_error st
       = (Raise (UnicodeEncodeError "utf-16-le"), st))
  /\ (Spec.no_surrogate (Api.reg_password req) ->
        forall e refresh_error,
          Api.register md5 req (Some e) refresh_error st
          = (Raise (HTTPException 500 "DB error"), st))
  /\ (Spec.no_surrogate (Api.reg_password req) ->
        forall e,
        exists pw_bytes,
          encode_utf16le (Api.reg_password req) = Ok pw_bytes
          /\ (Api.register md5 req None (Some e) st).1
             = Raise (HTTPException 500 "DB error")
          /\ Database.get_user_by_username (db (Api.register md5 req None (Some e) st).2)
               (Api.reg_username req)
             = Some (mkUser (Api.reg_username req) (md5 pw_bytes))
          /\ session_manager (Api.register md5 req None (Some e) st).2
             = session_manager st).
Proof.
  intros H. split; [|split].
  - intros Hn commit_error refresh_error. now apply register_bad_password.
  - intros Hpw e refresh_error.
    destruct (Exchange.nt_password_hash_Ok md5 _ Hpw) as (pw_bytes & _ & Hd).
    now apply register_commit_error with (digest := md5 pw_bytes).
  - intros Hpw e.
    destruct (Exchange.nt_password_hash_Ok md5 _ Hpw) as (pw_bytes & E & Hd).
    exists pw_bytes. split; [exact E|].
    rewrite (register_refresh_error req st _ e H Hd). cbn [fst snd db session_manager].
    unfold Database.get_user_by_username. now rewrite lookup_insert_eq.
Qed.

(** X25. After a successful registration, a second registration of the
    same username, with any password, is rejected with 400 and changes
    nothing: the first digest cannot be overwritten. *)
Theorem register_twice (req req' : Api.RegisterRequest)
    (commit_error refresh_error : option exn) (st : ServerState) :
  (Api.register md5 req None None st).1 = Ok (Api.mkRegisterResult true) ->
  Api.reg_username req' = Api.reg_username req ->
  Api.register md5 req' commit_error refresh_error (Api.register md5 req None None st).2
  = (Raise (HTTPException 400 "User already exists"),
     (Api.register md5 req None None st).2).
Proof.
  intros H Hu.
  destruct (db st !! Api.reg_username req) as [user|] eqn:E.
  - rewrite (register_existing req None None st user E) in H. discriminate.
  - destruct (MSCHAPv2.nt_password_hash md5 (Api.reg_password req)) as [d|e] eqn:Ed.
    + rewrite (register_fresh req st d E Ed). cbn [snd].
      apply register_existing with (user := mkUser (Api.reg_username req) d).
      cbn [db]. rewrite Hu. apply lookup_insert_eq.
    + exfalso. revert H.
      unfold Api.register, and_then, read, lift, Database.get_user_by_username.
      rewrite E, Ed. discriminate.
Qed.

Lemma decode_ascii_ok (b : bytes) :
  Forall (fun x => (Byte.to_N x < 128)%N) b -> Api.decode_ascii b = Ok (map Byte.to_N b).
Proof.
  induction 1 as [|x b Hx _ IH]; [reflexivity|].
  cbn [Api.decode_ascii map]. apply N.ltb_lt in Hx. now rewrite Hx, IH.
Qed.

Lemma auth_challenge_issued (req : Api.ChallengeRequest) (urandom16 : bytes) (uuid4 : str)
    (st : ServerState) (user : User) :
  db st !! Api.chal_username req = Some user ->
  Forall (fun x => (Byte.to_N x < 128)%N) (b64encode urandom16) ->
  Api.auth_challenge b64encode req urandom16 uuid4 st
  = (Ok (Api.mkChallengeResponse uuid4 (map Byte.to_N (b64encode urandom16))),
     mkServerState
       (create_session (session_manager st) (Api.chal_username req) urandom16 uuid4).1
       (db st)).
Proof.
  intros H Hb.
  unfold Api.auth_challenge, and_then, read, lift, ret, Api.manager_create_session,
    Database.get_user_by_username, get_auth_challenge, get_session, create_session.
  rewrite H. cbn [session_manager _sessions fst snd]. rewrite lookup_insert_eq.
  cbn [bind auth_challenge]. now rewrite decode_ascii_ok.
Qed.

(** X26. [/auth/challenge] for a username without a row answers 404
    "User not found" and creates no session: the state is unchanged. *)
Theorem challenge_unknown_user (req : Api.ChallengeRequest) (urandom16 : bytes) (uuid4 : str)
    (st : ServerState) :
  Database.get_user_by_username (db st) (Api.chal_username req) = None ->
  Api.auth_challenge b64encode req urandom16 uuid4 st
  = (Raise (HTTPException 404 "User not found"), st).
Proof.
  intros H. unfold Api.auth_challenge, and_then, read, raise. now rewrite H.
Qed.

(** X27. [/auth/challenge] for a registered username, the encoder giving
    ASCII bytes, returns the drawn identifier and the text of the encoded
    drawn challenge; afterwards the session under that identifier holds
    that username and that challenge, the other sessions and the table
    being as before. *)
Theorem challenge_issued (req : Api.ChallengeRequest) (urandom16 : bytes) (uuid4 : str)
    (st : ServerState) (user : User) :
  Database.get_user_by_username (db st) (Api.chal_username req) = Some user ->
  Forall (fun x => (Byte.to_N x < 128)%N) (b64encode urandom16) ->
  (Api.auth_challenge b64encode req urandom16 uuid4 st).1
  = Ok (Api.mkChallengeResponse uuid4 (map Byte.to_N (b64encode urandom16)))
  /\ get_session (session_manager (Api.auth_challenge b64encode req urandom16 uuid4 st).2)
       uuid4
     = Ok (mkAuthSession (Api.chal_username req) urandom16)
  /\ (forall sid : str, sid <> uuid4 ->
        get_session (session_manager (Api.auth_challenge b64encode req urandom16 uuid4 st).2)
          sid
        = get_session (session_manager st) sid)
  /\ db (Api.auth_challenge b64encode req urandom16 uuid4 st).2 = db st.
Proof.
  intros H Hb. rewrite (auth_challenge_issued req urandom16 uuid4 st user H Hb).
  cbn [fst snd session_manager db]. split; [reflexivity|].
  split; [apply Sessions.get_session_created|]. split; [|reflexivity].
  intros sid Hne. unfold get_session, create_session. cbn [fst _sessions].
  now rewrite lookup_insert_ne by congruence.
Qed.

End Endpoints.

End Accounts.

(** ** Registration, challenge and response in a row *)

Module Flow.
Import Py Server.

Section Endpoints.

#[local] Set Default Proof Using "Type".

Variable md5 : bytes -> bytes.
Variable sha1 : bytes -> bytes.
Variable DES_encrypt_block : bytes -> bytes -> result bytes.
Variable b64encode : bytes -> bytes.
Variable b64decode : str -> result bytes.

(** X28. With an 8-byte block cipher and an encoder giving ASCII bytes:
    a new user registers with a password; a challenge is issued to that
    user; the request that carries a peer challenge and the response
    [generate_nt_response] computes from the issued challenge, that peer
    challenge, the username and the password is answered success; the
    session is then gone. *)
Theorem register_then_login (st : ServerState) (identity password : str)
    (challenge peer r : bytes) (sid peer_field response_field : str) :
  Spec.block_cipher DES_encrypt_block ->
  Database.get_user_by_username (db st) identity = None ->
  Forall (fun x => (Byte.to_N x < 128)%N) (b64encode challenge) ->
  MSCHAPv2.generate_nt_response md5 sha1 DES_encrypt_block challenge peer identity password
  = Ok r ->
  b64decode peer_field = Ok peer ->
  b64decode response_field = Ok r ->
  exists st1 st2 st3,
    Api.register md5 (Api.mkRegisterRequest identity password) None None st
    = (Ok (Api.mkRegisterResult true), st1)
    /\ Api.auth_challenge b64encode (Api.mkChallengeRequest identity) challenge sid st1
       = (Ok (Api.mkChallengeResponse sid (map Byte.to_N (b64encode challenge))), st2)
    /\ auth_response sha1 DES_encrypt_block b64decode
         (mkAuthResponseRequest sid identity peer_field response_field) st2
       = (Ok (mkAuthResult true), st3)
    /\ get_session (session_manager st3) sid = Raise (KeyError "session not found").
Proof.
  intros Hdes Hnew Hb Hg Hp Hr.
  destruct (MSCHAPv2.nt_password_hash md5 password) as [d|] eqn:Ed;
    [|unfold MSCHAPv2.generate_nt_response in Hg; rewrite Ed in Hg; discriminate].
  set (req := Api.mkRegisterRequest identity password).
  set (st1 := mkServerState (session_manager st) (<[identity := mkUser identity d]> (db st))).
  set (st2 := mkServerState (create_session (session_manager st1) identity challenge sid).1
                (db st1)).
  set (areq := mkAuthResponseRequest sid identity peer_field response_field).
  exists st1, st2, (Api.consumed areq st2).
  split; [exact (Accounts.register_fresh md5 req st d Hnew Ed)|].
  split.
  { apply (Accounts.auth_challenge_issued b64encode (Api.mkChallengeRequest identity)
             challenge sid st1 (mkUser identity d)); [|exact Hb].
    subst st1. cbn [db Api.chal_username]. apply lookup_insert_eq. }
  split.
  - apply (Response.auth_response_accepts sha1 DES_encrypt_block b64decode md5 areq st2
             (mkAuthSession identity challenge) (mkUser identity d) password peer r);
      try assumption.
    + apply Sessions.get_session_created.
    + reflexivity.
    + subst st2 st1. cbn [db req_username areq]. apply lookup_insert_eq.
  - unfold Api.consumed. cbn [session_manager]. apply Sessions.get_session_deleted.
Qed.

End Endpoints.

End Flow.

(** ** The theorems above, on the stand-in scenario *)

Module Walkthrough.
Import Py Server.

Lemma challenge_hash_value_witness :
  (exists user_bytes,
     map Byte.to_N user_bytes = Demo.identity
     /\ MSCHAPv2.challenge_hash Demo.sha1 Demo.peer_challenge Demo.auth_challenge Demo.identity
        = Ok (take 8 (Demo.sha1 (Demo.peer_challenge ++ Demo.auth_challenge ++ user_bytes))))
  /\ MSCHAPv2.challenge_hash Demo.sha1 Demo.peer_challenge Demo.auth_challenge Scenario.zoe
     = Raise (UnicodeEncodeError "ascii").
Proof.
  split.
  - apply (Exchange.challenge_hash_value Demo.sha1 Demo.peer_challenge Demo.auth_challenge
             Demo.identity eq_refl eq_refl).
    apply (bool_decide_unpack _); vm_compute; exact I.
  - apply (Exchange.challenge_hash_value Demo.sha1 Demo.peer_challenge Demo.auth_challenge
             Scenario.zoe eq_refl eq_refl).
    apply (bool_decide_unpack _); vm_compute; exact I.
Defined.

Lemma generate_defined_witness :
  ((exists resp,
      MSCHAPv2.generate_nt_response Demo.md5 Demo.sha1 Demo.DES_encrypt_block
        Demo.auth_challenge Demo.peer_challenge Demo.identity Demo.password = Ok resp)
   <-> Spec.no_surrogate Demo.password /\ length Demo.peer_challenge = 16%nat
       /\ length Demo.auth_challenge = 16%nat /\ Spec.is_ascii Demo.identity)
  /\ (forall resp,
        MSCHAPv2.generate_nt_response Demo.md5 Demo.sha1 Demo.DES_encrypt_block
          Demo.auth_challenge Demo.peer_challenge Demo.identity Demo.password = Ok resp ->
        length resp = 24%nat).
Proof.
  apply Exchange.generate_defined.
  - apply DemoFacts.md5_digest16.
  - apply DemoFacts.sha1_digest_at_least8.
  - apply DemoFacts.DES_block_cipher.
Defined.

Lemma verify_accepts_only_generated_witness :
  MSCHAPv2.verify_nt_response Demo.sha1 Demo.DES_encrypt_block
    Demo.auth_challenge Demo.peer_challenge Demo.identity Demo.digest (Demo.zeros 24)
  = Ok (bool_decide (Demo.zeros 24 = Demo.response)).
Proof.
  apply (Exchange.verify_accepts_only_generated Demo.md5 Demo.sha1 Demo.DES_encrypt_block
           Demo.auth_challenge Demo.peer_challenge Demo.identity Demo.password).
  - apply DemoFacts.DES_block_cipher.
  - vm_compute. reflexivity.
  - vm_compute. reflexivity.
Defined.

Lemma verify_accepts_at_most_one_witness : Demo.response = Demo.response.
Proof.
  apply (Exchange.verify_accepts_at_most_one Demo.sha1 Demo.DES_encrypt_block
           Demo.auth_challenge Demo.peer_challenge Demo.identity Demo.digest);
    vm_compute; reflexivity.
Defined.

Lemma verify_returns_iff_witness :
  (exists b,
     MSCHAPv2.verify_nt_response Demo.sha1 Demo.DES_encrypt_block
       Demo.auth_challenge Demo.peer_challenge Demo.identity Demo.digest Demo.response = Ok b)
  <-> length Demo.peer_challenge = 16%nat /\ length Demo.auth_challenge = 16%nat
      /\ Spec.is_ascii Demo.identity /\ length Demo.digest = 16%nat.
Proof.
  exact (Exchange.verify_returns_iff Demo.sha1 Demo.DES_encrypt_block
           Demo.auth_challenge Demo.peer_challenge Demo.identity Demo.digest Demo.response
           DemoFacts.sha1_digest_at_least8 DemoFacts.DES_block_cipher eq_refl).
Defined.

Lemma success_is_sound_witness :
  exists sess user peer r,
    get_session (session_manager Scenario.challenged) Demo.session_id = Ok sess
    /\ username sess = Demo.identity
    /\ db Scenario.challenged !! Demo.identity = Some user
    /\ Scenario.b64decode (Scenario.text Demo.peer_challenge) = Ok peer
    /\ length peer = 16%nat
    /\ Scenario.b64decode (Scenario.text Demo.response) = Ok r
    /\ bind (MSCHAPv2.challenge_hash Demo.sha1 peer (auth_challenge sess) Demo.identity)
         (fun chall8 =>
            MSCHAPv2.challenge_response Demo.DES_encrypt_block chall8 (nt_hash user))
       = Ok r.
Proof.
  apply (Response.success_is_sound Demo.sha1 Demo.DES_encrypt_block Scenario.b64decode
           Scenario.good_request Scenario.challenged).
  vm_compute. reflexivity.
Defined.

Lemma answered_once_witness :
  auth_response Demo.sha1 Demo.DES_encrypt_block Scenario.b64decode Scenario.bad_request
    (auth_response Demo.sha1 Demo.DES_encrypt_block Scenario.b64decode
       Scenario.good_request Scenario.challenged).2
  = (Raise (HTTPException 400 "Invalid session_id"),
     (auth_response Demo.sha1 Demo.DES_encrypt_block Scenario.b64decode
        Scenario.good_request Scenario.challenged).2).
Proof.
  apply (Response.answered_once Demo.sha1 Demo.DES_encrypt_block Scenario.b64decode
           Scenario.good_request Scenario.bad_request Scenario.challenged
           (mkAuthResult true)).
  - vm_compute. reflexivity.
  - reflexivity.
Defined.

Lemma unknown_session_rejected_witness :
  auth_response Demo.sha1 Demo.DES_encrypt_block Scenario.b64decode Scenario.good_request
    Scenario.registered
  = (Raise (HTTPException 400 "Invalid session_id"), Scenario.registered).
Proof.
  apply Response.unknown_session_rejected. vm_compute. reflexivity.
Defined.

Lemma payload_rejections_witness :
  auth_response Demo.sha1 Demo.DES_encrypt_block Scenario.b64decode Scenario.garbled_request
    Scenario.challenged
  = (Raise (HTTPException 400 "Bad base64"), Scenario.challenged)
  /\ auth_response Demo.sha1 Demo.DES_encrypt_block Scenario.b64decode Scenario.short_request
       Scenario.challenged
     = (Raise (HTTPException 400 "Wrong lengths"), Scenario.challenged)
  /\ auth_response Demo.sha1 Demo.DES_encrypt_block Scenario.b64decode Scenario.good_request
       (mkServerState (session_manager Scenario.challenged) ∅)
     = (Raise (HTTPException 404 "User not found"),
        mkServerState (session_manager Scenario.challenged) ∅).
Proof.
  split; [|split].
  - destruct (Response.payload_rejections Demo.sha1 Demo.DES_encrypt_block Scenario.b64decode
                Scenario.garbled_request Scenario.challenged
                (mkAuthSession Demo.identity Demo.auth_challenge))
      as (H & _); [vm_compute; reflexivity | reflexivity |].
    apply H. left. eexists. vm_compute. reflexivity.
  - destruct (Response.payload_rejections Demo.sha1 Demo.DES_encrypt_block Scenario.b64decode
                Scenario.short_request Scenario.challenged
                (mkAuthSession Demo.identity Demo.auth_challenge))
      as (_ & H & _); [vm_compute; reflexivity | reflexivity |].
    apply (H Demo.peer_challenge (Demo.zeros 23));
      [vm_compute; reflexivity | vm_compute; reflexivity | right; discriminate].
  - destruct (Response.payload_rejections Demo.sha1 Demo.DES_encrypt_block Scenario.b64decode
                Scenario.good_request (mkServerState (session_manager Scenario.challenged) ∅)
                (mkAuthSession Demo.identity Demo.auth_challenge))
      as (_ & _ & H); [vm_compute; reflexivity | reflexivity |].
    apply (H Demo.peer_challenge Demo.response);
      [vm_compute; reflexivity | vm_compute; reflexivity | reflexivity | reflexivity
      | reflexivity].
Defined.

Lemma non_ascii_identity_raises_witness :
  auth_response Demo.sha1 Demo.DES_encrypt_block Scenario.b64decode Scenario.zoe_request
    Scenario.zoe_server
  = (Raise (UnicodeEncodeError "ascii"), Scenario.zoe_server).
Proof.
  apply (Response.non_ascii_identity_raises Demo.sha1 Demo.DES_encrypt_block
           Scenario.b64decode Scenario.zoe_request Scenario.zoe_server
           (mkAuthSession Scenario.zoe Demo.auth_challenge)
           (mkUser Scenario.zoe Demo.digest) Demo.peer_challenge Demo.response);
    try (vm_compute; reflexivity).
  apply (bool_decide_unpack _); vm_compute; exact I.
Defined.



Lemma register_existing_user_witness :
  Api.register Demo.md5 Scenario.register_request None None Scenario.registered
  = (Raise (HTTPException 400 "User already exists"), Scenario.registered).
Proof.
  apply (Accounts.register_existing_user Demo.md5 Scenario.register_request None None
           Scenario.registered (mkUser Demo.identity Demo.digest)).
  vm_compute. reflexivity.
Defined.

Lemma register_stores_digest_witness :
  exists pw_bytes,
    encode_utf16le Demo.password = Ok pw_bytes
    /\ (Api.register Demo.md5 Scenario.register_request None None Scenario.empty).1
       = Ok (Api.mkRegisterResult true)
    /\ Database.get_user_by_username
         (db (Api.register Demo.md5 Scenario.register_request None None Scenario.empty).2)
         Demo.identity
       = Some (mkUser Demo.identity (Demo.md5 pw_bytes))
    /\ (forall other : str, other <> Demo.identity ->
          Database.get_user_by_username
            (db (Api.register Demo.md5 Scenario.register_request None None Scenario.empty).2) other
          = Database.get_user_by_username (db Scenario.empty) other)
    /\ session_manager (Api.register Demo.md5 Scenario.register_request None None Scenario.empty).2
       = session_manager Scenario.empty.
Proof.
  apply (Accounts.register_stores_digest Demo.md5 Scenario.register_request Scenario.empty).
  - reflexivity.
  - apply (bool_decide_unpack _); vm_compute; exact I.
Defined.

Lemma register_failures_witness :
  Api.register Demo.md5 (Api.mkRegisterRequest Demo.identity [0xD800%N]) None None
    Scenario.empty
  = (Raise (UnicodeEncodeError "utf-16-le"), Scenario.empty)
  /\ Api.register Demo.md5 Scenario.register_request (Some (Other "OperationalError")) None
       Scenario.empty
     = (Raise (HTTPException 500 "DB error"), Scenario.empty)
  /\ (exists pw_bytes,
        encode_utf16le Demo.password = Ok pw_bytes
        /\ (Api.register Demo.md5 Scenario.register_request None
              (Some (Other "InvalidRequestError")) Scenario.empty).1
           = Raise (HTTPException 500 "DB error")
        /\ Database.get_user_by_username
             (db (Api.register Demo.md5 Scenario.register_request None
                    (Some (Other "InvalidRequestError")) Scenario.empty).2)
             Demo.identity
           = Some (mkUser Demo.identity (Demo.md5 pw_bytes))
        /\ session_manager
             (Api.register Demo.md5 Scenario.register_request None
                (Some (Other "InvalidRequestError")) Scenario.empty).2
           = session_manager Scenario.empty).
Proof.
  split; [|split].
  - destruct (Accounts.register_failures Demo.md5
                (Api.mkRegisterRequest Demo.identity [0xD800%N]) Scenario.empty eq_refl)
      as (H & _).
    apply H. apply (bool_decide_unpack _); vm_compute; exact I.
  - destruct (Accounts.register_failures Demo.md5 Scenario.register_request Scenario.empty
                eq_refl) as (_ & H & _).
    apply H. apply (bool_decide_unpack _); vm_compute; exact I.
  - destruct (Accounts.register_failures Demo.md5 Scenario.register_request Scenario.empty
                eq_refl) as (_ & _ & H).
    apply H. apply (bool_decide_unpack _); vm_compute; exact I.
Defined.

Lemma register_twice_witness :
  Api.register Demo.md5 (Api.mkRegisterRequest Demo.identity (str_of_string "other")) None
    None
    (Api.register Demo.md5 Scenario.register_request None None Scenario.empty).2
  = (Raise (HTTPException 400 "User already exists"),
     (Api.register Demo.md5 Scenario.register_request None None Scenario.empty).2).
Proof.
  apply (Accounts.register_twice Demo.md5 Scenario.register_request
           (Api.mkRegisterRequest Demo.identity (str_of_string "other")) None None
           Scenario.empty).
  - vm_compute. reflexivity.
  - reflexivity.
Defined.

Lemma challenge_unknown_user_witness :
  Api.auth_challenge Scenario.b64encode (Api.mkChallengeRequest Demo.identity)
    Demo.auth_challenge Demo.session_id Scenario.empty
  = (Raise (HTTPException 404 "User not found"), Scenario.empty).
Proof. apply Accounts.challenge_unknown_user. reflexivity. Defined.

Lemma challenge_issued_witness :
  (Api.auth_challenge Scenario.b64encode (Api.mkChallengeRequest Demo.identity)
     Demo.auth_challenge Demo.session_id Scenario.registered).1
  = Ok (Api.mkChallengeResponse Demo.session_id
          (map Byte.to_N (Scenario.b64encode Demo.auth_challenge)))
  /\ get_session
       (session_manager
          (Api.auth_challenge Scenario.b64encode (Api.mkChallengeRequest Demo.identity)
             Demo.auth_challenge Demo.session_id Scenario.registered).2)
       Demo.session_id
     = Ok (mkAuthSession Demo.identity Demo.auth_challenge)
  /\ (forall sid : str, sid <> Demo.session_id ->
        get_session
          (session_manager
             (Api.auth_challenge Scenario.b64encode (Api.mkChallengeRequest Demo.identity)
                Demo.auth_challenge Demo.session_id Scenario.registered).2)
          sid
        = get_session (session_manager Scenario.registered) sid)
  /\ db (Api.auth_challenge Scenario.b64encode (Api.mkChallengeRequest Demo.identity)
           Demo.auth_challenge Demo.session_id Scenario.registered).2
     = db Scenario.registered.
Proof.
  apply (Accounts.challenge_issued Scenario.b64encode (Api.mkChallengeRequest Demo.identity)
           Demo.auth_challenge Demo.session_id Scenario.registered
           (mkUser Demo.identity Demo.digest)).
  - vm_compute. reflexivity.
  - apply (bool_decide_unpack _); vm_compute; exact I.
Defined.

Lemma register_then_login_witness :
  exists st1 st2 st3,
    Api.register Demo.md5 (Api.mkRegisterRequest Demo.identity Demo.password) None None
      Scenario.empty
    = (Ok (Api.mkRegisterResult true), st1)
    /\ Api.auth_challenge Scenario.b64encode (Api.mkChallengeRequest Demo.identity)
         Demo.auth_challenge Demo.session_id st1
       = (Ok (Api.mkChallengeResponse Demo.session_id
                (map Byte.to_N (Scenario.b64encode Demo.auth_challenge))), st2)
    /\ auth_response Demo.sha1 Demo.DES_encrypt_block Scenario.b64decode
         (mkAuthResponseRequest Demo.session_id Demo.identity
            (Scenario.text Demo.peer_challenge) (Scenario.text Demo.response)) st2
       = (Ok (mkAuthResult true), st3)
    /\ get_session (session_manager st3) Demo.session_id
       = Raise (KeyError "session not found").
Proof.
  apply (Flow.register_then_login Demo.md5 Demo.sha1 Demo.DES_encrypt_block
           Scenario.b64encode Scenario.b64decode Scenario.empty Demo.identity Demo.password
           Demo.auth_challenge Demo.peer_challenge Demo.response).
  - apply DemoFacts.DES_block_cipher.
  - reflexivity.
  - apply (bool_decide_unpack _); vm_compute; exact I.
  - vm_compute. reflexivity.
  - vm_compute. reflexivity.
  - vm_compute. reflexivity.
Defined.

End Walkthrough.
